(** * AgentForge: the TODO tools, the transactional scope, the message
      history and the orchestrator loop

    Shallow embedding of [AgentForge/tools/todo_tool.py] together with the
    collaborators it imports ([with_session], [TodoItem], [MessageStorage],
    [Agent]).  Python values are modelled by [value], a SQLAlchemy session
    by the rows the unit of work currently sees, and every tool body is a
    function from the injected session to an outcome and the session after
    the call. *)

From stdpp Require Import base option list strings pretty.
From Stdlib Require Import NArith Ascii.

Set Warnings "-register-all".
Local Open Scope string_scope.
Local Open Scope list_scope.
Local Open Scope nat_scope.

(** ** Python values and f-strings *)

Module Py.

(** The values the tools return: [dict] literals keep their insertion
    order, so a dictionary is an association list. *)
Inductive value :=
| VBool (b : bool)
| VStr (s : string)
| VList (l : list value)
| VDict (d : list (string * value)).

Fixpoint assoc (k : string) (d : list (string * value)) : option value :=
  match d with
  | [] => None
  | (k', v) :: d' => if decide (k' = k) then Some v else assoc k d'
  end.

(** [v[k]] for a dictionary [v]; [None] when [v] is no dictionary or has
    no such key. *)
Definition get (k : string) (v : value) : option value :=
  match v with
  | VDict d => assoc k d
  | _ => None
  end.

(** [needle in haystack] on strings. *)
Definition contains (haystack needle : string) : Prop :=
  ∃ before after, haystack = before +:+ needle +:+ after.

(** [s[:n]] *)
Definition slice_to (n : nat) (s : string) : string :=
  String.string_of_list_ascii (take n (String.list_ascii_of_string s)).

(** What a call can do: return, raise, or be cancelled at one of its
    suspension points ([asyncio.CancelledError]). *)
Inductive exn :=
| AttributeError (attr : string)
| OtherError (msg : string).

Inductive outcome (A : Type) :=
| Returned (a : A)
| Raised (e : exn)
| Cancelled.
Arguments Returned {A} a.
Arguments Raised {A} e.
Arguments Cancelled {A}.

End Py.
Import Py.

(** ** [uuid.uuid4().hex] *)

Module Uuid.

Definition hexdigits : list ascii := String.list_ascii_of_string "0123456789abcdef".

Definition hex_digit (d : N) : ascii :=
  default "0"%char (hexdigits !! N.to_nat d).

(** The [i]-th of the 32 characters of ['%032x' % n]. *)
Definition nibble (n : N) (i : nat) : N :=
  N.land (N.shiftr n (4 * N.of_nat (31 - i))) 15.

Definition format_032x (n : N) : string :=
  String.string_of_list_ascii ((λ i, hex_digit (nibble n i)) <$> seq 0 32).

(** [UUID(bytes=os.urandom(16), version=4)]: the variant bits are set to
    RFC 4122 and the version nibble to 4. *)
Definition uuid4 (random : N) : N :=
  let int := (random mod 2 ^ 128)%N in
  let int := N.ldiff int (N.shiftl 0xc000 48) in
  let int := N.lor int (N.shiftl 0x8000 48) in
  let int := N.ldiff int (N.shiftl 0xf000 64) in
  N.lor int (N.shiftl 4 76).

Definition hex (u : N) : string := format_032x u.

Definition is_lower_hex (c : ascii) : bool :=
  let n := nat_of_ascii c in
  (48 <=? n)%nat && (n <=? 57)%nat || (97 <=? n)%nat && (n <=? 102)%nat.

End Uuid.

(** ** The persisted entity and the unit of work *)

Module Models.

(** Modelled from the spec: the mapped class [TodoItem] of
    [AgentForge/database/models.py]; its columns are the keyword arguments of the constructor call in
    [CreateTodoTool.execute], and "Persistent Entity: {id: unique string,
    agent_id, title, description}". *)
Record TodoItem := {
  id : string;
  agent_id : string;
  title : string;
  description : string;
}.

Global Instance TodoItem_eq_dec : EqDecision TodoItem.
Proof. solve_decision. Defined.

(** The entity set: the rows of the table, oldest first. *)
Abbreviation table := (list TodoItem).

(** "id: unique string": the primary key. *)
Definition unique_ids (t : table) : Prop := NoDup (id <$> t).

Global Instance unique_ids_dec t : Decision (unique_ids t).
Proof. unfold unique_ids. apply _. Defined.

End Models.
Import Models.

Module Orm.

(** A session is identified by its handle and holds the rows its unit of
    work currently sees: the table as it was when the session was
    acquired, with this session's pending inserts, attribute writes and
    deletes applied.  The session object stays the same through a call;
    what a call changes is its rows. *)
Record Session := {
  handle : nat;
  rows : table;
}.

Definition with_rows (s : Session) (t : table) : Session :=
  {| handle := handle s; rows := t |}.

(** [session.query(TodoItem).filter_by(...).first()]: the first row that
    satisfies the criterion, with its position. *)
Definition first (P : TodoItem → Prop) `{∀ t, Decision (P t)}
    (s : Session) : option (nat * TodoItem) :=
  list_find P (rows s).

(** [session.query(TodoItem).filter_by(...).all()] *)
Definition all (P : TodoItem → Prop) `{∀ t, Decision (P t)}
    (s : Session) : list TodoItem :=
  filter P (rows s).

(** [session.add(todo)] *)
Definition add (todo : TodoItem) (s : Session) : Session :=
  with_rows s (rows s ++ [todo]).

(** Attribute writes on the loaded row at position [i]. *)
Definition write (i : nat) (todo : TodoItem) (s : Session) : Session :=
  with_rows s (<[i := todo]> (rows s)).

(** [session.delete(todo)] for the loaded row at position [i]. *)
Definition delete (i : nat) (s : Session) : Session :=
  with_rows s (base.delete i (rows s)).

End Orm.
Import Orm.

(** ** The transactional execution scope *)

Module Db.

(** What a scope does to the persistence collaborator, in order. *)
Inductive event :=
| Acquire (h : nat)
| Invoke (h : nat)
| Commit (h : nat)
| Rollback (h : nat)
| Release (h : nat).

Global Instance event_eq_dec : EqDecision event.
Proof. solve_decision. Defined.

(** The persistence collaborator: the persisted entity set, the sessions
    that are acquired and not yet released, and the journal of what the
    scopes did, oldest first. *)
Record database := {
  todos : table;
  next_handle : nat;
  open_sessions : list nat;
  journal : list event;
}.

(** The session a scope acquires on [db]: a fresh handle, and the rows
    as persisted. *)
Definition injected (db : database) : Session :=
  {| handle := next_handle db; rows := todos db |}.

Definition acquire (db : database) : Session * database :=
  let h := next_handle db in
  (injected db,
   {| todos := todos db; next_handle := S h;
      open_sessions := h :: open_sessions db;
      journal := journal db ++ [Acquire h] |}).

Definition invoke (s : Session) (db : database) : database :=
  {| todos := todos db; next_handle := next_handle db;
     open_sessions := open_sessions db;
     journal := journal db ++ [Invoke (handle s)] |}.

(** The commit persists the rows of the session.  The store checks no
    constraint here: a commit that the primary key would refuse (a second
    row under an identifier) is not told apart.  What [create_todo]
    returns and persists under the scope is therefore stated for an
    identifier that is new to the store. *)
Definition commit (s : Session) (db : database) : database :=
  {| todos := rows s; next_handle := next_handle db;
     open_sessions := open_sessions db;
     journal := journal db ++ [Commit (handle s)] |}.

Definition rollback (s : Session) (db : database) : database :=
  {| todos := todos db; next_handle := next_handle db;
     open_sessions := open_sessions db;
     journal := journal db ++ [Rollback (handle s)] |}.

Definition release (s : Session) (db : database) : database :=
  {| todos := todos db; next_handle := next_handle db;
     open_sessions := filter (λ h, h ≠ handle s) (open_sessions db);
     journal := journal db ++ [Release (handle s)] |}.

(** Modelled from the spec: the decorator [with_session] of
    [AgentForge/database/db.py].  "Acquire a unit-of-work before
    invocation, inject it as an implicit extra argument, commit it if
    execute returns normally, roll it back if execute raises, and release
    the unit-of-work on every exit path regardless of outcome";
    "cancellation must still release any acquired transactional scope
    (rollback) before propagating".  The body cannot reach the
    collaborator but through the session it is handed. *)
Definition with_session {A} (execute : Session → outcome A * Session)
    (db : database) : outcome A * database :=
  let '(session, db) := acquire db in
  let db := invoke session db in
  let '(result, after) := execute session in
  let session := with_rows session (rows after) in
  let db :=
    match result with
    | Returned _ => commit session db
    | Raised _ | Cancelled => rollback session db
    end in
  (result, release session db).

End Db.
Import Db.

(** ** Messages and the bounded message history *)

Module Core.

(** [ToolParameter(name=, type=, description=)] and what a tool class
    declares: [name], [description], [parameters], [returns]. *)
Record ToolParameter := {
  param_name : string;
  param_type : string;
  param_description : string;
}.

Record Descriptor := {
  tool_name : string;
  tool_description : string;
  parameters : list ToolParameter;
  returns : string;
}.

Inductive role := user | assistant | tool.

(** Modelled from the spec: the messages of
    [AgentForge/core/message_storage.py], "Message: {role: enum{user,
    assistant, tool}, content: string or structured payload}".  The spec
    names the pairing of a tool-call with its tool-result, not how it is
    represented: here both carry the same call identifier. *)
Inductive content :=
| Text (s : string)
| ToolCall (call : string) (name : string) (arguments : value)
| ToolResult (call : string) (result : value).

Record Message := {
  msg_role : role;
  msg_content : content;
}.

Definition call_of (m : Message) : option string :=
  match msg_content m with ToolCall c _ _ => Some c | _ => None end.

Definition result_of (m : Message) : option string :=
  match msg_content m with ToolResult c _ => Some c | _ => None end.

(** Modelled from the spec: one eviction of [MessageStorage], "eviction
    removes from the oldest end while preserving tool-call/tool-result
    pairing": the oldest entry leaves, and when it is a tool-call the
    tool-results for it leave with it ("do not evict a tool-call without
    its tool-result, or vice versa"). *)
Definition evict_oldest (l : list Message) : list Message :=
  match l with
  | [] => []
  | m :: l' =>
      match call_of m with
      | Some c => filter (λ r, result_of r ≠ Some c) l'
      | None => l'
      end
  end.

(** Modelled from the spec: the eviction loop of [MessageStorage],
    "eviction triggers automatically on append once size exceeds the
    configured maximum": while there are more than [n] entries the oldest
    is evicted, at most [fuel] times. *)
Fixpoint evict (fuel n : nat) (l : list Message) : list Message :=
  match fuel with
  | 0 => l
  | S fuel' =>
      if decide (length l ≤ n) then l else evict fuel' n (evict_oldest l)
  end.

(** Modelled from the spec: the class [MessageStorage] of
    [AgentForge/core/message_storage.py], of which the sources show the
    constructor calls [MessageStorage(max_size=20)] and [MessageStorage()]
    only.  "Message History: ordered sequence of Message, max size N
    (configurable)"; "operations: append(Message), snapshot(), clear().
    Eviction triggers automatically on append once size exceeds the
    configured maximum; eviction removes from the oldest end while
    preserving tool-call/tool-result pairing". *)
Record MessageStorage := {
  max_size : nat;
  messages : list Message;
}.

(** [MessageStorage(max_size=n)] *)
Definition new_storage (n : nat) : MessageStorage :=
  {| max_size := n; messages := [] |}.

(** Modelled from the spec: [MessageStorage.append].  The message is
    added at the newest end; nothing leaves while the size does not exceed
    the maximum.  One eviction per entry is fuel enough for the loop. *)
Definition append (m : Message) (h : MessageStorage) : MessageStorage :=
  let l := messages h ++ [m] in
  {| max_size := max_size h; messages := evict (length l) (max_size h) l |}.

Definition snapshot (h : MessageStorage) : list Message := messages h.

Definition clear (h : MessageStorage) : MessageStorage :=
  new_storage (max_size h).

(** The history after a sequence of appends, oldest append first. *)
Definition appends (ms : list Message) (h : MessageStorage) : MessageStorage :=
  foldl (λ h m, append m h) h ms.


(** The orchestrator's identity: the keyword arguments of the constructor
    calls [Agent(client=, agent_id=, message_storage=, who_am_i=, tools=)]. *)
Record Agent (Client Tool : Type) := {
  client : Client;
  agent_id : string;
  message_storage : MessageStorage;
  who_am_i : string;
  tools : list Tool;
}.
Arguments client {Client Tool} _.
Arguments agent_id {Client Tool} _.
Arguments message_storage {Client Tool} _.
Arguments who_am_i {Client Tool} _.
Arguments tools {Client Tool} _.

(** Modelled from the spec: [Agent.get_id] of [AgentForge/core/agent.py],
    "agent_id: the identity used to scope persisted entities". *)
Definition get_id {Client Tool} (a : Agent Client Tool) : string := agent_id a.

(** Modelled from the spec: [Agent.update_who_am_i], which "replaces the
    system prompt without touching history". *)
Definition update_who_am_i {Client Tool} (prompt : string)
    (a : Agent Client Tool) : Agent Client Tool :=
  {| client := client a; agent_id := agent_id a;
     message_storage := message_storage a; who_am_i := prompt;
     tools := tools a |}.

End Core.

(** ** The TODO tools *)

Module TodoTool.


(** The leaf tool classes of the module. *)
Inductive LeafTool :=
| CreateTodoTool
| UpdateTodoTool
| DeleteTodoTool
| GetAllTodosTool.

Global Instance LeafTool_eq_dec : EqDecision LeafTool.
Proof. solve_decision. Defined.

(** What each class declares. *)
Definition describe (t : LeafTool) : Core.Descriptor :=
  let param n d :=
    {| Core.param_name := n; Core.param_type := "string";
       Core.param_description := d |} in
  match t with
  | CreateTodoTool =>
      {| Core.tool_name := "create_todo";
         Core.tool_description := "Creates a new todo item";
         Core.parameters :=
           [param "title" "Title of the todo item";
            param "description" "Detailed description of the todo item"];
         Core.returns := "Result of action" |}
  | UpdateTodoTool =>
      {| Core.tool_name := "update_todo";
         Core.tool_description := "Updates an existing todo item";
         Core.parameters :=
           [param "todo_id" "ID of the todo to update";
            param "title" "New title of the todo item";
            param "description" "New description of the todo item"];
         Core.returns := "Result of action" |}
  | DeleteTodoTool =>
      {| Core.tool_name := "delete_todo";
         Core.tool_description := "Deletes a todo by its ID";
         Core.parameters := [param "todo_id" "ID of the todo to delete"];
         Core.returns := "Result of action" |}
  | GetAllTodosTool =>
      {| Core.tool_name := "get_all_todos";
         Core.tool_description := "Returns all existing todos";
         Core.parameters := [];
         Core.returns := "List of todos" |}
  end.

(** A tool instance knows the agent it is registered with: the attribute
    [parent_agent] that the leaf tools read. *)
Record BaseTool (Client Tool : Type) := {
  parent_agent : Core.Agent Client Tool;
}.
Arguments parent_agent {Client Tool} _.

(** [{"id": t.id, "title": t.title, "description": t.description}] *)
Definition todo_dict (t : TodoItem) : value :=
  VDict [("id", VStr (id t)); ("title", VStr (title t));
         ("description", VStr (description t))].

(** The criterion [filter_by(id=todo_id, agent_id=agent_id)]: the rows
    the executing agent owns under the identifier [todo_id]. *)
Definition owned {Client Tool} (self : BaseTool Client Tool)
    (todo_id : string) (t : TodoItem) : Prop :=
  id t = todo_id ∧ Models.agent_id t = Core.get_id (parent_agent self).

Global Instance owned_dec {Client Tool} (self : BaseTool Client Tool)
    todo_id t : Decision (owned self todo_id t).
Proof. unfold owned. apply _. Defined.

(** The payload of the two not-found paths. *)
Definition not_found (todo_id : string) : value :=
  VDict [("success", VBool false);
         ("message", VStr ("No todo found with ID " +:+ todo_id))].

End TodoTool.
Import TodoTool.

(** The four leaf tools.  [execute_wrapped] is the function as written,
    with the session as its last argument; [execute] is that function
    under [@with_session].  Calls to [logger.info] have no effect on the
    result or the store and are left out. *)

Module CreateTodoTool.
Section Tool.
Context {Client Tool : Type}.

(** [random] are the sixteen bytes [uuid.uuid4()] draws, as an integer. *)
Definition execute_wrapped (self : BaseTool Client Tool)
    (title description : string) (random : N) (session : Session)
    : outcome value * Session :=
  let todo_id := "todo_" +:+ slice_to 8 (Uuid.hex (Uuid.uuid4 random)) in
  let agent_id := Core.get_id (parent_agent self) in
  let todo :=
    {| id := todo_id; Models.agent_id := agent_id;
       Models.title := title; Models.description := description |} in
  let session := add todo session in
  (Returned (VDict [("id", VStr (id todo));
                    ("title", VStr (Models.title todo));
                    ("description", VStr (Models.description todo))]),
   session).

Definition execute (self : BaseTool Client Tool)
    (title description : string) (random : N)
    : database → outcome value * database :=
  with_session (execute_wrapped self title description random).

End Tool.
End CreateTodoTool.

Module UpdateTodoTool.
Section Tool.
Context {Client Tool : Type}.

Definition execute_wrapped (self : BaseTool Client Tool)
    (todo_id title description : string) (session : Session)
    : outcome value * Session :=
  let agent_id := Core.get_id (parent_agent self) in
  match first (λ t, id t = todo_id ∧ Models.agent_id t = agent_id) session with
  | Some (i, todo) =>
      let todo :=
        {| id := id todo; Models.agent_id := Models.agent_id todo;
           Models.title := title; Models.description := description |} in
      let session := write i todo session in
      (Returned (VDict [("success", VBool true);
                        ("message",
                         VStr ("Todo '" +:+ Models.title todo +:+ "' updated"));
                        ("todo",
                         VDict [("id", VStr (id todo));
                                ("title", VStr (Models.title todo));
                                ("description", VStr (Models.description todo))])]),
       session)
  | None =>
      (Returned (VDict [("success", VBool false);
                        ("message", VStr ("No todo found with ID " +:+ todo_id))]),
       session)
  end.

Definition execute (self : BaseTool Client Tool)
    (todo_id title description : string)
    : database → outcome value * database :=
  with_session (execute_wrapped self todo_id title description).

End Tool.
End UpdateTodoTool.

Module DeleteTodoTool.
Section Tool.
Context {Client Tool : Type}.

Definition execute_wrapped (self : BaseTool Client Tool)
    (todo_id : string) (session : Session) : outcome value * Session :=
  let agent_id := Core.get_id (parent_agent self) in
  match first (λ t, id t = todo_id ∧ Models.agent_id t = agent_id) session with
  | Some (i, todo) =>
      let title := Models.title todo in
      let session := Orm.delete i session in
      (Returned (VDict [("success", VBool true);
                        ("message", VStr ("Todo '" +:+ title +:+ "' deleted"))]),
       session)
  | None =>
      (Returned (VDict [("success", VBool false);
                        ("message", VStr ("No todo found with ID " +:+ todo_id))]),
       session)
  end.

Definition execute (self : BaseTool Client Tool) (todo_id : string)
    : database → outcome value * database :=
  with_session (execute_wrapped self todo_id).

End Tool.
End DeleteTodoTool.

Module GetAllTodosTool.
Section Tool.
Context {Client Tool : Type}.

Definition execute_wrapped (self : BaseTool Client Tool) (session : Session)
    : outcome value * Session :=
  let agent_id := Core.get_id (parent_agent self) in
  let todos := all (λ t, Models.agent_id t = agent_id) session in
  (Returned (VList (todo_dict <$> todos)), session).

Definition execute (self : BaseTool Client Tool)
    : database → outcome value * database :=
  with_session (execute_wrapped self).

End Tool.
End GetAllTodosTool.

(** The nested orchestrator tool. *)

Module TodoAgentTool.

Definition describe : Core.Descriptor :=
  {| Core.tool_name := "todo_manager";
     Core.tool_description := "Manages TODO list using natural language commands";
     Core.parameters :=
       [{| Core.param_name := "request"; Core.param_type := "string";
           Core.param_description :=
             "Natural language request for managing todos" |}];
     Core.returns := "Result of action" |}.

Section Tool.
Context {Client Tool World : Type}.

(** [Agent.run], of [AgentForge/core/agent.py]: it answers a request,
    and changes the agent (its history) and the world on the way. *)
Context (run : Core.Agent Client LeafTool → string → World →
               outcome string * Core.Agent Client LeafTool * World).

(** The [max_size] that [MessageStorage()] takes by default. *)
Context (default_max_size : nat).

(** The instance: its attribute [agent], unset until registration.
    [constructed] is no attribute of the class: it counts the calls of the
    constructor [Agent(...)] this instance has made. *)
Record self := {
  agent : option (Core.Agent Client LeafTool);
  constructed : nat;
}.



Definition execute (this : self) (request : string) (w : World)
    : outcome string * self * World :=
  match agent this with
  | Some a =>
      let '(answer, a', w') := run a request w in
      (answer, {| agent := Some a'; constructed := constructed this |}, w')
  | None => (Raised (AttributeError "agent"), this, w)
  end.


End Tool.
End TodoAgentTool.

(** ** The orchestrator loop *)

Module Orchestrator.
Import Core.

(** The tool contract: [describe] is pure, [execute] acts on the world. *)
Class ToolContract (Tool World : Type) := {
  describe : Tool → Descriptor;
  execute : Tool → value → World → outcome value * World;
}.

(** What the language-model capability answers. *)
Inductive reply :=
| FinalText (text : string)
| ToolCalls (calls : list (string * value))
| Unreachable.

Inductive condition :=
| ToolLoopExceeded
| CapabilityUnavailable
| InfrastructureFailure (e : exn)
| RunCancelled.

(** The states of one request-handling cycle; [QueryingModel] and
    [DispatchingTools] carry the number of dispatch rounds completed. *)
Inductive state :=
| AwaitingInput
| QueryingModel (round : nat)
| DispatchingTools (round : nat) (calls : list (string * value))
| Responding (answer : string)
| Failed (c : condition).

Definition terminal (s : state) : bool :=
  match s with
  | Responding _ | Failed _ => true
  | _ => false
  end.

Section Loop.
Context {Tool World : Type} `{ToolContract Tool World}.

(** The capability: "input = (ordered message history, tool catalog,
    system prompt)"; it may answer differently each time it is asked, so
    it reads and writes the world. *)
Definition Capability : Type :=
  list Core.Message → list Descriptor → string → World → reply * World.

Definition agent : Type := Core.Agent Capability Tool.

(** The fixed caps: dispatch rounds per request, and attempts per query. *)
Context (MAX_ROUNDS MAX_ATTEMPTS : nat).

Record config := {
  current : state;
  self : agent;
  world : World;
}.

Definition catalog (a : agent) : list Descriptor := describe <$> Core.tools a.

Definition resolve (a : agent) (name : string) : option Tool :=
  snd <$> list_find (λ t, tool_name (describe t) = name) (Core.tools a).

Definition type_ok (ty : string) (v : value) : bool :=
  if decide (ty = "string") then match v with VStr _ => true | _ => false end
  else if decide (ty = "boolean") then match v with VBool _ => true | _ => false end
  else true.

Definition valid_arguments (ps : list ToolParameter) (args : value) : bool :=
  forallb (λ p, from_option (type_ok (param_type p)) false
                  (Py.get (param_name p) args)) ps.

Definition remember (m : Core.Message) (a : agent) : agent :=
  {| Core.client := Core.client a; Core.agent_id := Core.agent_id a;
     Core.message_storage := Core.append m (Core.message_storage a);
     Core.who_am_i := Core.who_am_i a; Core.tools := Core.tools a |}.

Definition failure (message : string) : value :=
  VDict [("success", VBool false); ("message", VStr message)].

(** Modelled from the spec: one query of [Agent.run], "capability
    unreachable/timeout is a recoverable-per-call error the Orchestrator
    may retry a bounded number of times". *)
Fixpoint query (attempts : nat) (a : agent) (w : World) : reply * World :=
  let '(r, w') :=
    Core.client a (Core.snapshot (Core.message_storage a)) (catalog a)
      (Core.who_am_i a) w in
  match r, attempts with
  | Unreachable, S k => query k a w'
  | _, _ => (r, w')
  end.

Definition call_id (round index : nat) : string :=
  "call_" +:+ pretty round +:+ "_" +:+ pretty index.

(** Modelled from the spec: one tool invocation of [Agent.run]:
    resolved by name, its arguments validated, executed; an unknown tool
    or invalid arguments are reported "back into history as a tool-result
    of failure".  The call and its result enter the history together, in
    this order. *)
Definition invoke_tool (round index : nat) (call : string * value)
    (a : agent) (w : World) : option condition * agent * World :=
  let '(name, args) := call in
  let c := call_id round index in
  let asked := {| Core.msg_role := Core.assistant;
                  Core.msg_content := Core.ToolCall c name args |} in
  let told v := {| Core.msg_role := Core.tool;
                   Core.msg_content := Core.ToolResult c v |} in
  match resolve a name with
  | None =>
      (None, remember (told (failure ("UnknownTool: " +:+ name)))
               (remember asked a), w)
  | Some t =>
      if valid_arguments (parameters (describe t)) args then
        match execute t args w with
        | (Returned v, w') => (None, remember (told v) (remember asked a), w')
        | (Raised e, w') => (Some (InfrastructureFailure e), a, w')
        | (Cancelled, w') => (Some RunCancelled, a, w')
        end
      else
        (None, remember (told (failure ("InvalidArguments: " +:+ name)))
                 (remember asked a), w)
  end.

(** Modelled from the spec: the calls of one round of [Agent.run],
    "dispatched sequentially in the order received". *)
Fixpoint dispatch (round index : nat) (calls : list (string * value))
    (a : agent) (w : World) : option condition * agent * World :=
  match calls with
  | [] => (None, a, w)
  | call :: calls' =>
      match invoke_tool round index call a w with
      | (None, a', w') => dispatch round (S index) calls' a' w'
      | failed => failed
      end
  end.

(** Modelled from the spec: one transition of the state machine of
    [Agent.run] for the request [request].  "Iteration cap: the
    QueryingModel, DispatchingTools cycle is bounded by a fixed maximum
    number of rounds; exceeding it transitions to Failed with a
    ToolLoopExceeded condition". *)
Definition step (request : string) (c : config) : config :=
  match current c with
  | AwaitingInput =>
      {| current := QueryingModel 0;
         self := remember {| Core.msg_role := Core.user;
                             Core.msg_content := Core.Text request |} (self c);
         world := world c |}
  | QueryingModel round =>
      match query MAX_ATTEMPTS (self c) (world c) with
      | (FinalText text, w) =>
          {| current := Responding text;
             self := remember {| Core.msg_role := Core.assistant;
                                 Core.msg_content := Core.Text text |} (self c);
             world := w |}
      | (ToolCalls calls, w) =>
          if decide (round < MAX_ROUNDS)%nat then
            {| current := DispatchingTools round calls;
               self := self c; world := w |}
          else
            {| current := Failed ToolLoopExceeded; self := self c; world := w |}
      | (Unreachable, w) =>
          {| current := Failed CapabilityUnavailable;
             self := self c; world := w |}
      end
  | DispatchingTools round calls =>
      match dispatch round 0 calls (self c) (world c) with
      | (None, a, w) =>
          {| current := QueryingModel (S round); self := a; world := w |}
      | (Some cond, a, w) =>
          {| current := Failed cond; self := a; world := w |}
      end
  | Responding _ | Failed _ => c
  end.

Definition steps (request : string) (n : nat) (c : config) : config :=
  Nat.iter n (step request) c.

(** Steps that a run may take at most: one to accept the request, two per
    dispatch round, one for the last query. *)
Definition budget : nat := 2 * MAX_ROUNDS + 2.

(** Modelled from the spec: [Agent.run] of [AgentForge/core/agent.py].
    "run(request: string) -> string: appends the request as a user
    message, drives the state machine to a terminal state, returns the
    final answer text (or raises/returns a structured failure on the
    Failed path)".  [None] when the cycle is still not in a terminal state
    after [budget] steps. *)
Definition run (request : string) (a : agent) (w : World)
    : option (string + condition) * agent * World :=
  let c := steps request budget
             {| current := AwaitingInput; self := a; world := w |} in
  (match current c with
   | Responding answer => Some (inl answer)
   | Failed cond => Some (inr cond)
   | _ => None
   end, self c, world c).

(** A capability that requests another tool call whatever it is shown. *)
Definition always_requests_tools (ask : Capability) : Prop :=
  ∀ history cat prompt w, ∃ calls w', ask history cat prompt w = (ToolCalls calls, w').

(** Tools that return whatever they are called with. *)
Definition tools_return : Prop :=
  ∀ t args w, ∃ v w', execute t args w = (Returned v, w').

(** The round counter stays within the cap. *)
Definition within_cap (s : state) : Prop :=
  match s with
  | QueryingModel round => (round ≤ MAX_ROUNDS)%nat
  | DispatchingTools round _ => (round < MAX_ROUNDS)%nat
  | _ => True
  end.

(** Steps a cycle in state [s] can still take. *)
Definition remaining (s : state) : nat :=
  match s with
  | AwaitingInput => 2 * MAX_ROUNDS + 2
  | QueryingModel round => 2 * (MAX_ROUNDS - round) + 1
  | DispatchingTools round _ => 2 * (MAX_ROUNDS - round)
  | Responding _ | Failed _ => 0
  end.

End Loop.
End Orchestrator.

(** ** Sample data *)

Module Sample.
Import Orchestrator.

(** Two orchestrators, as [example.py] builds them, with different
    identifiers. *)
Definition agent_123 : Core.Agent unit unit :=
  {| Core.client := (); Core.agent_id := "123";
     Core.message_storage := Core.new_storage 20;
     Core.who_am_i := "You are an AI assistant."; Core.tools := [] |}.

Definition agent_456 : Core.Agent unit unit :=
  {| Core.client := (); Core.agent_id := "456";
     Core.message_storage := Core.new_storage 20;
     Core.who_am_i := "You are an AI assistant."; Core.tools := [] |}.

Definition tool_123 : BaseTool unit unit := {| parent_agent := agent_123 |}.
Definition tool_456 : BaseTool unit unit := {| parent_agent := agent_456 |}.

Definition milk : TodoItem :=
  {| id := "todo_0000000a"; Models.agent_id := "123";
     Models.title := "Buy milk"; Models.description := "two litres" |}.

Definition rent : TodoItem :=
  {| id := "todo_0000000b"; Models.agent_id := "456";
     Models.title := "Pay rent"; Models.description := "" |}.

Definition empty_db : database :=
  {| todos := []; next_handle := 0; open_sessions := []; journal := [] |}.

Definition db : database :=
  {| todos := [milk; rent]; next_handle := 0; open_sessions := [];
     journal := [] |}.

(** A tool that returns its arguments and counts its invocations, and a
    capability that asks for it whatever it is shown. *)
Definition echo : Core.Descriptor :=
  {| Core.tool_name := "echo"; Core.tool_description := "Returns its arguments";
     Core.parameters := []; Core.returns := "The arguments" |}.

Global Instance echo_contract : ToolContract unit nat :=
  {| Orchestrator.describe := λ _, echo;
     Orchestrator.execute := λ _ args w, (Returned args, S w) |}.

Definition greedy : Capability (World:=nat) :=
  λ _ _ _ w, (ToolCalls [("echo", VDict [])], w).

Definition greedy_agent : agent (Tool:=unit) (World:=nat) :=
  {| Core.client := greedy; Core.agent_id := "123";
     Core.message_storage := Core.new_storage 20;
     Core.who_am_i := "You are an AI assistant."; Core.tools := [()] |}.

Definition says (text : string) : Core.Message :=
  {| Core.msg_role := Core.user; Core.msg_content := Core.Text text |}.

Definition asks (call : string) : Core.Message :=
  {| Core.msg_role := Core.assistant;
     Core.msg_content := Core.ToolCall call "get_all_todos" (VDict []) |}.

Definition tells (call : string) : Core.Message :=
  {| Core.msg_role := Core.tool;
     Core.msg_content := Core.ToolResult call (VList []) |}.

End Sample.

(** ** Vocabulary for the tools' effects *)

Module Effects.

(** The row [t] after the attribute writes [todo.title = title] and
    [todo.description = description] of [UpdateTodoTool.execute]. *)
Definition rewritten (t : TodoItem) (title description : string) : TodoItem :=
  {| id := id t; Models.agent_id := Models.agent_id t;
     Models.title := title; Models.description := description |}.

(** What [GetAllTodosTool.execute] lists for the agent [agent] on the
    rows [t]. *)
Definition listing (agent : string) (t : table) : list value :=
  todo_dict <$> filter (λ r, Models.agent_id r = agent) t.

(** The four bytes a draw of [uuid.uuid4()] starts with, and their eight
    hexadecimal digits (['%08x' % n]). *)
Definition leading (random : N) : N := ((random mod 2 ^ 128) / 2 ^ 96)%N.

Definition format_08x (n : N) : string :=
  String.string_of_list_ascii
    ((λ i, Uuid.hex_digit (N.land (N.shiftr n (4 * N.of_nat (7 - i))) 15))
       <$> seq 0 8).

End Effects.
Import Effects.

(** * Properties *)

(** ** The transactional scope around a tool body *)

Section Scope.
Context {A : Type}.
Implicit Types (execute : Session → outcome A * Session) (db : database).

Lemma with_session_result execute db :
  fst (with_session execute db) = fst (execute (injected db)).
Proof.
  unfold with_session, acquire, injected; simpl.
  by destruct (execute _) as [[v|e|] s'].
Qed.

Lemma with_session_returned execute db v s' :
  execute (injected db) = (Returned v, s') →
  fst (with_session execute db) = Returned v ∧
  todos (snd (with_session execute db)) = rows s'.
Proof.
  intros Hex. unfold with_session, acquire; simpl.
  fold (injected db). by rewrite Hex.
Qed.

Lemma with_session_unchanged execute db v s' :
  execute (injected db) = (v, s') → rows s' = todos db →
  fst (with_session execute db) = v ∧
  todos (snd (with_session execute db)) = todos db.
Proof.
  intros Hex Hrows. unfold with_session, acquire; simpl.
  fold (injected db). rewrite Hex. by destruct v.
Qed.

End Scope.

(** ** The leaf tools *)

Section LeafTools.
Context {Client Tool : Type}.
Implicit Types (self : BaseTool Client Tool) (db : database) (t : TodoItem).

Lemma contains_suffix (prefix s : string) : contains (prefix +:+ s) s.
Proof.
  exists prefix, "". f_equal.
  induction s as [|c s IH]; [done|].
  change (String c s = String c (s +:+ "")). by f_equal.
Qed.

Lemma first_missing self todo_id db :
  (∀ t, t ∈ todos db → ¬ owned self todo_id t) →
  first (owned self todo_id) (injected db) = None.
Proof.
  intros Hnone. unfold first; simpl.
  apply list_find_None, Forall_forall. exact Hnone.
Qed.

Lemma unique_ids_position (l : table) i j t u :
  unique_ids l → l !! i = Some t → l !! j = Some u → id t = id u → i = j.
Proof.
  unfold unique_ids. intros Hnd Hi Hj Hid.
  apply (NoDup_lookup _ i j (id t) Hnd).
  - by rewrite list_lookup_fmap, Hi.
  - by rewrite list_lookup_fmap, Hj, Hid.
Qed.

Lemma update_missing self todo_id title description db :
  (∀ t, t ∈ todos db → ¬ owned self todo_id t) →
  UpdateTodoTool.execute self todo_id title description db
    = (Returned (not_found todo_id),
       snd (UpdateTodoTool.execute self todo_id title description db)) ∧
  todos (snd (UpdateTodoTool.execute self todo_id title description db))
    = todos db.
Proof.
  intros Hnone.
  pose proof (first_missing self todo_id db Hnone) as Hfirst.
  unfold owned in Hfirst.
  destruct (with_session_unchanged
              (UpdateTodoTool.execute_wrapped self todo_id title description)
              db (Returned (not_found todo_id)) (injected db)) as [Hres Hdb].
  - unfold UpdateTodoTool.execute_wrapped. by rewrite Hfirst.
  - done.
  - split; [|exact Hdb].
    unfold UpdateTodoTool.execute in *.
    destruct (with_session _ db) as [r db']. simpl in *. by subst.
Qed.

Lemma delete_missing self todo_id db :
  (∀ t, t ∈ todos db → ¬ owned self todo_id t) →
  DeleteTodoTool.execute self todo_id db
    = (Returned (not_found todo_id),
       snd (DeleteTodoTool.execute self todo_id db)) ∧
  todos (snd (DeleteTodoTool.execute self todo_id db)) = todos db.
Proof.
  intros Hnone.
  pose proof (first_missing self todo_id db Hnone) as Hfirst.
  unfold owned in Hfirst.
  destruct (with_session_unchanged
              (DeleteTodoTool.execute_wrapped self todo_id)
              db (Returned (not_found todo_id)) (injected db)) as [Hres Hdb].
  - unfold DeleteTodoTool.execute_wrapped. by rewrite Hfirst.
  - done.
  - split; [|exact Hdb].
    unfold DeleteTodoTool.execute in *.
    destruct (with_session _ db) as [r db']. simpl in *. by subst.
Qed.

Lemma get_all_result self db :
  GetAllTodosTool.execute self db
    = (Returned (VList (todo_dict <$>
         filter (λ t, Models.agent_id t = Core.get_id (parent_agent self))
                (todos db))),
       snd (GetAllTodosTool.execute self db)) ∧
  todos (snd (GetAllTodosTool.execute self db)) = todos db.
Proof.
  unfold GetAllTodosTool.execute.
  destruct (with_session_unchanged (GetAllTodosTool.execute_wrapped self) db
              (Returned (VList (todo_dict <$>
                 filter (λ t, Models.agent_id t = Core.get_id (parent_agent self))
                        (todos db))))
              (injected db)) as [Hres Hdb]; [done..|].
  split; [|exact Hdb].
  destruct (with_session _ db) as [r db']. simpl in *. by subst.
Qed.

Lemma foreign_not_owned self db other t :
  unique_ids (todos db) → other ∈ todos db →
  Models.agent_id other ≠ Core.get_id (parent_agent self) →
  t ∈ todos db → ¬ owned self (id other) t.
Proof.
  intros Hpk Hother Hne Ht [Hid Hag].
  apply list_elem_of_lookup in Hother as [i Hi].
  apply list_elem_of_lookup in Ht as [j Hj].
  assert (j = i) as -> by (eapply unique_ids_position; eauto).
  congruence.
Qed.

(** C1: entities are scoped by [agent_id].  [get_all_todos] returns the
    dictionaries of exactly the persisted entities whose [agent_id] is the
    executing agent's, in their order, and persists nothing; and when the
    primary key holds on the entity set, [update_todo] and [delete_todo]
    called with the identifier of an entity that another agent owns answer
    [{success: False, ...}] and leave the entity set as it was. *)
Theorem agent_scoping self db :
  (∃ mine,
      fst (GetAllTodosTool.execute self db) = Returned (VList (todo_dict <$> mine)) ∧
      mine `sublist_of` todos db ∧
      (∀ t, t ∈ mine ↔
            t ∈ todos db ∧ Models.agent_id t = Core.get_id (parent_agent self)) ∧
      todos (snd (GetAllTodosTool.execute self db)) = todos db) ∧
  ∀ other title description,
    unique_ids (todos db) →
    other ∈ todos db →
    Models.agent_id other ≠ Core.get_id (parent_agent self) →
    (∃ r, fst (UpdateTodoTool.execute self (id other) title description db)
            = Returned r ∧
          Py.get "success" r = Some (VBool false) ∧
          todos (snd (UpdateTodoTool.execute self (id other) title description db))
            = todos db) ∧
    (∃ r, fst (DeleteTodoTool.execute self (id other) db) = Returned r ∧
          Py.get "success" r = Some (VBool false) ∧
          todos (snd (DeleteTodoTool.execute self (id other) db)) = todos db).
Proof.
  split.
  - destruct (get_all_result self db) as [Hres Hdb].
    eexists. split; [by rewrite Hres|].
    split; [apply sublist_filter|]. split; [|exact Hdb].
    intros t. rewrite list_elem_of_filter. tauto.
  - intros other title description Hpk Hother Hne. split.
    + destruct (update_missing self (id other) title description db)
        as [Hres Hdb].
      { intros t Ht. by eapply foreign_not_owned. }
      exists (not_found (id other)). by rewrite Hres.
    + destruct (delete_missing self (id other) db) as [Hres Hdb].
      { intros t Ht. by eapply foreign_not_owned. }
      exists (not_found (id other)). by rewrite Hres.
Qed.

(** C2: [update_todo] on an identifier under which the executing agent
    owns no entity answers [{success: False, message: ...}], the message
    contains the identifier, and the entity set is left as it was. *)
Theorem update_nonexistent self todo_id title description db :
  (∀ t, t ∈ todos db → ¬ owned self todo_id t) →
  ∃ message,
    fst (UpdateTodoTool.execute self todo_id title description db)
      = Returned (VDict [("success", VBool false); ("message", VStr message)]) ∧
    contains message todo_id ∧
    todos (snd (UpdateTodoTool.execute self todo_id title description db))
      = todos db.
Proof.
  intros Hnone.
  destruct (update_missing self todo_id title description db Hnone) as [Hres Hdb].
  exists ("No todo found with ID " +:+ todo_id).
  split; [by rewrite Hres|]. split; [apply contains_suffix | exact Hdb].
Qed.

Lemma delete_found self todo_id db i t :
  todos db !! i = Some t →
  first (owned self todo_id) (injected db) = Some (i, t) →
  DeleteTodoTool.execute self todo_id db
    = (Returned (VDict [("success", VBool true);
                        ("message",
                         VStr ("Todo '" +:+ Models.title t +:+ "' deleted"))]),
       snd (DeleteTodoTool.execute self todo_id db)) ∧
  todos (snd (DeleteTodoTool.execute self todo_id db))
    = take i (todos db) ++ drop (S i) (todos db).
Proof.
  intros Hi Hfirst. unfold owned in Hfirst.
  destruct (with_session_returned (DeleteTodoTool.execute_wrapped self todo_id) db
              (VDict [("success", VBool true);
                      ("message",
                       VStr ("Todo '" +:+ Models.title t +:+ "' deleted"))])
              (Orm.delete i (injected db))) as [Hres Hdb].
  { unfold DeleteTodoTool.execute_wrapped. by rewrite Hfirst. }
  unfold DeleteTodoTool.execute in *.
  destruct (with_session _ db) as [r db']. simpl in *. subst r.
  split; [done|]. rewrite Hdb. apply delete_take_drop.
Qed.

Lemma first_owned self db t :
  unique_ids (todos db) → t ∈ todos db →
  Models.agent_id t = Core.get_id (parent_agent self) →
  ∃ i, todos db !! i = Some t ∧
       first (owned self (id t)) (injected db) = Some (i, t).
Proof.
  intros Hpk Ht Hag.
  apply list_elem_of_lookup in Ht as [i Hi]. exists i. split; [done|].
  unfold first; simpl. apply list_find_Some.
  split; [done|]. split; [by split|].
  intros j u Hj Hlt [Hid _].
  assert (j = i) by (eapply unique_ids_position; eauto). lia.
Qed.

(** C3: when the primary key holds on the entity set and the executing
    agent owns the entity [t], [delete_todo] on its identifier answers
    [{success: True, ...}] and removes [t] and nothing else, the other
    entities staying as they were and in their order; a second
    [delete_todo] on the same identifier answers [{success: False, ...}]
    and changes nothing. *)
Theorem delete_existing self db t :
  unique_ids (todos db) →
  t ∈ todos db →
  Models.agent_id t = Core.get_id (parent_agent self) →
  ∃ before after r1 r2,
    let db1 := snd (DeleteTodoTool.execute self (id t) db) in
    let db2 := snd (DeleteTodoTool.execute self (id t) db1) in
    todos db = before ++ t :: after ∧
    fst (DeleteTodoTool.execute self (id t) db) = Returned r1 ∧
    Py.get "success" r1 = Some (VBool true) ∧
    todos db1 = before ++ after ∧
    (t ∉ todos db1) ∧
    fst (DeleteTodoTool.execute self (id t) db1) = Returned r2 ∧
    Py.get "success" r2 = Some (VBool false) ∧
    todos db2 = todos db1.
Proof.
  intros Hpk Ht Hag.
  destruct (first_owned self db t Hpk Ht Hag) as (i & Hi & Hfirst).
  destruct (delete_found self (id t) db i t Hi Hfirst) as [Hres Hdb].
  pose proof (take_drop_middle _ _ _ Hi) as Hsplit.
  assert (∀ u, u ∈ take i (todos db) ++ drop (S i) (todos db) →
               id u ≠ id t) as Hfresh.
  { intros u Hu Heq. unfold unique_ids in Hpk.
    rewrite <- Hsplit, fmap_app, fmap_cons in Hpk.
    apply NoDup_app in Hpk as (_ & Hleft & Hright).
    apply NoDup_cons in Hright as [Hright _].
    apply elem_of_app in Hu as [Hu|Hu].
    - apply (Hleft (id u)); [by apply list_elem_of_fmap_2|].
      rewrite Heq. left.
    - apply Hright. rewrite <- Heq. by apply list_elem_of_fmap_2. }
  destruct (delete_missing self (id t)
              (snd (DeleteTodoTool.execute self (id t) db))) as [Hres2 Hdb2].
  { intros u Hu [Hid _]. rewrite Hdb in Hu. by apply (Hfresh u). }
  eexists (take i (todos db)), (drop (S i) (todos db)), _, _. simpl.
  split; [done|]. split; [by rewrite Hres|]. split; [done|].
  split; [done|]. split.
  { rewrite Hdb. intros Hin. by apply (Hfresh t). }
  split; [by rewrite Hres2|]. split; [done | exact Hdb2].
Qed.

Lemma update_found self todo_id title description db i t :
  first (owned self todo_id) (injected db) = Some (i, t) →
  ∃ r, UpdateTodoTool.execute self todo_id title description db
         = (Returned r,
            snd (UpdateTodoTool.execute self todo_id title description db)) ∧
       Py.get "success" r = Some (VBool true) ∧
       Py.get "message" r = Some (VStr ("Todo '" +:+ title +:+ "' updated")) ∧
       Py.get "todo" r
         = Some (VDict [("id", VStr (id t)); ("title", VStr title);
                        ("description", VStr description)]) ∧
       todos (snd (UpdateTodoTool.execute self todo_id title description db))
         = <[i := {| id := id t; Models.agent_id := Models.agent_id t;
                     Models.title := title;
                     Models.description := description |}]> (todos db).
Proof.
  intros Hfirst. unfold owned in Hfirst.
  eexists.
  edestruct (with_session_returned
               (UpdateTodoTool.execute_wrapped self todo_id title description) db)
    as [Hres Hdb].
  { unfold UpdateTodoTool.execute_wrapped. rewrite Hfirst. reflexivity. }
  unfold UpdateTodoTool.execute in *.
  destruct (with_session _ db) as [r db']. simpl in *. subst r.
  split; [reflexivity|]. by rewrite Hdb.
Qed.

Lemma create_result self title description random db :
  let todo :=
    {| id := "todo_" +:+ slice_to 8 (Uuid.hex (Uuid.uuid4 random));
       Models.agent_id := Core.get_id (parent_agent self);
       Models.title := title; Models.description := description |} in
  CreateTodoTool.execute self title description random db
    = (Returned (todo_dict todo),
       snd (CreateTodoTool.execute self title description random db)) ∧
  todos (snd (CreateTodoTool.execute self title description random db))
    = todos db ++ [todo].
Proof.
  intros todo.
  destruct (with_session_returned
              (CreateTodoTool.execute_wrapped self title description random) db
              (todo_dict todo) (add todo (injected db))) as [Hres Hdb];
    [done|].
  unfold CreateTodoTool.execute in *.
  destruct (with_session _ db) as [r db']. simpl in *. by subst r.
Qed.

(** C4: on an empty entity set, [create_todo] with the title "Buy milk"
    followed by [get_all_todos] under the same agent lists exactly one
    entry, whose title is "Buy milk"; [get_all_todos] under an agent with
    another identifier lists nothing. *)
Theorem create_then_get_all self (other : BaseTool Client Tool)
    description random db :
  todos db = [] →
  Core.get_id (parent_agent other) ≠ Core.get_id (parent_agent self) →
  let db1 :=
    snd (CreateTodoTool.execute self "Buy milk" description random db) in
  (∃ entry,
     fst (GetAllTodosTool.execute self db1) = Returned (VList [entry]) ∧
     Py.get "title" entry = Some (VStr "Buy milk")) ∧
  fst (GetAllTodosTool.execute other db1) = Returned (VList []).
Proof.
  intros Hempty Hne db1.
  destruct (create_result self "Buy milk" description random db) as [_ Hdb1].
  cbv zeta in Hdb1. rewrite Hempty, app_nil_l in Hdb1.
  destruct (get_all_result self db1) as [Hmine _].
  destruct (get_all_result other db1) as [Htheirs _].
  rewrite Hmine, Htheirs. unfold db1. rewrite Hdb1. simpl. split.
  - rewrite filter_cons_True by done. eexists. split; reflexivity.
  - rewrite filter_cons_False by (simpl; congruence). reflexivity.
Qed.

Lemma length_string_of_list_ascii (l : list ascii) :
  String.length (String.string_of_list_ascii l) = length l.
Proof. induction l as [|c l IH]; simpl; [done | by rewrite IH]. Qed.

Lemma nibble_lt n i : (Uuid.nibble n i < 16)%N.
Proof.
  unfold Uuid.nibble. change 15%N with (N.ones 4).
  rewrite N.land_ones. by apply N.mod_lt.
Qed.

Lemma hex_digit_lower d :
  (d < 16)%N → Uuid.is_lower_hex (Uuid.hex_digit d) = true.
Proof.
  intros Hd. unfold Uuid.hex_digit.
  assert (N.to_nat d < 16) as Hk by lia.
  destruct (N.to_nat d) as [|k]; [reflexivity|].
  do 15 (destruct k as [|k]; [reflexivity|]). lia.
Qed.

Lemma hex_prefix u :
  String.length (slice_to 8 (Uuid.hex u)) = 8 ∧
  Forall (λ c, Uuid.is_lower_hex c = true)
         (String.list_ascii_of_string (slice_to 8 (Uuid.hex u))).
Proof.
  unfold slice_to, Uuid.hex, Uuid.format_032x.
  rewrite !String.list_ascii_of_string_of_list_ascii.
  split.
  - by rewrite length_string_of_list_ascii, length_take, length_fmap, length_seq.
  - apply Forall_take, Forall_fmap, Forall_forall.
    intros i _. apply hex_digit_lower, nibble_lt.
Qed.

(** C10: [create_todo] returns the dictionary whose [title] and
    [description] are its arguments and whose [id] is "todo_" followed by
    eight lowercase hexadecimal characters; the entity it creates carries
    that identifier, those fields, and the executing agent's identifier.
    This is what the function does on every session, and what it persists
    and returns under the scope when the identifier is new to the store. *)
Theorem create_returns self title description random db :
  ∃ suffix todo,
    String.length suffix = 8 ∧
    Forall (λ c, Uuid.is_lower_hex c = true) (String.list_ascii_of_string suffix) ∧
    id todo = "todo_" +:+ suffix ∧
    Models.agent_id todo = Core.get_id (parent_agent self) ∧
    Models.title todo = title ∧
    Models.description todo = description ∧
    (∀ session,
       CreateTodoTool.execute_wrapped self title description random session
         = (Returned (VDict [("id", VStr ("todo_" +:+ suffix));
                             ("title", VStr title);
                             ("description", VStr description)]),
            add todo session)) ∧
    ("todo_" +:+ suffix ∉ id <$> todos db →
     fst (CreateTodoTool.execute self title description random db)
       = Returned (VDict [("id", VStr ("todo_" +:+ suffix));
                          ("title", VStr title);
                          ("description", VStr description)]) ∧
     todos (snd (CreateTodoTool.execute self title description random db))
       = todos db ++ [todo]).
Proof.
  destruct (create_result self title description random db) as [Hres Hdb].
  destruct (hex_prefix (Uuid.uuid4 random)) as [Hlen Hhex].
  exists (slice_to 8 (Uuid.hex (Uuid.uuid4 random))),
    {| id := "todo_" +:+ slice_to 8 (Uuid.hex (Uuid.uuid4 random));
       Models.agent_id := Core.get_id (parent_agent self);
       Models.title := title; Models.description := description |}.
  split; [exact Hlen|]. split; [exact Hhex|].
  do 4 (split; [reflexivity|]). split; [reflexivity|].
  intros _. rewrite Hres. split; [reflexivity | exact Hdb].
Qed.

(** The primary key is kept by the tools: [update_todo] leaves the
    identifiers as they are, [delete_todo] removes at most one, and
    [create_todo] adds one, which must be new. *)
Lemma update_keeps_ids self todo_id title description db :
  id <$> todos (snd (UpdateTodoTool.execute self todo_id title description db))
    = id <$> todos db.
Proof.
  destruct (first (owned self todo_id) (injected db)) as [[i t]|] eqn:Hfirst.
  - destruct (update_found self todo_id title description db i t Hfirst)
      as (r & _ & _ & _ & _ & ->).
    apply list_find_Some in Hfirst as (Hi & _ & _). simpl in Hi.
    rewrite list_fmap_insert. simpl.
    apply list_insert_id. by rewrite list_lookup_fmap, Hi.
  - apply list_find_None in Hfirst.
    destruct (update_missing self todo_id title description db) as [_ ->];
      [by apply Forall_forall | done].
Qed.

Lemma delete_keeps_unique_ids self todo_id db :
  unique_ids (todos db) →
  unique_ids (todos (snd (DeleteTodoTool.execute self todo_id db))).
Proof.
  unfold unique_ids. intros Hpk.
  destruct (first (owned self todo_id) (injected db)) as [[i t]|] eqn:Hfirst.
  - pose proof Hfirst as Hfound.
    apply list_find_Some in Hfound as (Hi & _ & _).
    destruct (delete_found self todo_id db i t Hi Hfirst) as [_ ->].
    rewrite <- delete_take_drop, list_fmap_delete.
    eapply sublist_NoDup; [exact Hpk | apply sublist_delete].
  - apply list_find_None in Hfirst.
    destruct (delete_missing self todo_id db) as [_ ->];
      [by apply Forall_forall | done].
Qed.

Lemma create_keeps_unique_ids self title description random db :
  unique_ids (todos db) →
  "todo_" +:+ slice_to 8 (Uuid.hex (Uuid.uuid4 random)) ∉ id <$> todos db →
  unique_ids (todos (snd (CreateTodoTool.execute self title description
                            random db))).
Proof.
  unfold unique_ids. intros Hpk Hfresh.
  destruct (create_result self title description random db) as [_ ->].
  rewrite fmap_app. apply NoDup_app. split; [exact Hpk|]. split.
  - intros x Hx Hnew. apply list_elem_of_singleton in Hnew. by subst x.
  - apply NoDup_singleton.
Qed.

Lemma owned_found self todo_id (session : Session) i t :
  first (owned self todo_id) session = Some (i, t) →
  bool_decide (Exists (owned self todo_id) (rows session)) = true.
Proof.
  intros Hfirst. apply list_find_Some in Hfirst as (Hi & Hown & _).
  apply bool_decide_eq_true_2, Exists_exists. exists t.
  split; [by eapply list_elem_of_lookup_2 | done].
Qed.

Lemma owned_missing self todo_id (session : Session) :
  first (owned self todo_id) session = None →
  bool_decide (Exists (owned self todo_id) (rows session)) = false.
Proof.
  intros Hfirst. apply list_find_None in Hfirst.
  by apply bool_decide_eq_false_2, Forall_Exists_neg.
Qed.

(** C7: the leaf tools do not raise.  On every session and for all
    arguments each function returns a value: [create_todo] a dictionary,
    [get_all_todos] a list, and [update_todo] and [delete_todo] a
    dictionary with a [message] and a [success] flag that is [True]
    exactly when the executing agent owns an entity under the identifier;
    a missing entity gives the payload [{success: False, message}].  Under
    the scope [update_todo], [delete_todo] and [get_all_todos] have the
    outcome of their function on the acquired session, and so has
    [create_todo] when the identifier it draws is new to the store. *)
Theorem leaf_tools_return self (session : Session) :
  (∀ title description random, ∃ d,
      fst (CreateTodoTool.execute_wrapped self title description random session)
        = Returned (VDict d)) ∧
  (∀ todo_id title description, ∃ r message,
      fst (UpdateTodoTool.execute_wrapped self todo_id title description session)
        = Returned r ∧
      Py.get "success" r
        = Some (VBool (bool_decide (Exists (owned self todo_id) (rows session)))) ∧
      Py.get "message" r = Some (VStr message) ∧
      (if bool_decide (Exists (owned self todo_id) (rows session)) then True
       else r = VDict [("success", VBool false); ("message", VStr message)])) ∧
  (∀ todo_id, ∃ r message,
      fst (DeleteTodoTool.execute_wrapped self todo_id session) = Returned r ∧
      Py.get "success" r
        = Some (VBool (bool_decide (Exists (owned self todo_id) (rows session)))) ∧
      Py.get "message" r = Some (VStr message) ∧
      (if bool_decide (Exists (owned self todo_id) (rows session)) then True
       else r = VDict [("success", VBool false); ("message", VStr message)])) ∧
  (∃ l, fst (GetAllTodosTool.execute_wrapped self session) = Returned (VList l)) ∧
  (∀ db title description random,
      "todo_" +:+ slice_to 8 (Uuid.hex (Uuid.uuid4 random)) ∉ id <$> todos db →
      fst (CreateTodoTool.execute self title description random db)
        = fst (CreateTodoTool.execute_wrapped self title description random
                 (injected db))) ∧
  (∀ db todo_id title description,
      fst (UpdateTodoTool.execute self todo_id title description db)
        = fst (UpdateTodoTool.execute_wrapped self todo_id title description
                 (injected db))) ∧
  (∀ db todo_id,
      fst (DeleteTodoTool.execute self todo_id db)
        = fst (DeleteTodoTool.execute_wrapped self todo_id (injected db))) ∧
  (∀ db,
      fst (GetAllTodosTool.execute self db)
        = fst (GetAllTodosTool.execute_wrapped self (injected db))).
Proof.
  split; [|split; [|split; [|split]]].
  - intros title description random. by eexists.
  - intros todo_id title description.
    unfold UpdateTodoTool.execute_wrapped.
    fold (owned self todo_id).
    destruct (first (owned self todo_id) session) as [[i t]|] eqn:Hfirst.
    + rewrite (owned_found _ _ _ _ _ Hfirst). by eexists _, _.
    + rewrite (owned_missing _ _ _ Hfirst). by eexists _, _.
  - intros todo_id. unfold DeleteTodoTool.execute_wrapped.
    fold (owned self todo_id).
    destruct (first (owned self todo_id) session) as [[i t]|] eqn:Hfirst.
    + rewrite (owned_found _ _ _ _ _ Hfirst). by eexists _, _.
    + rewrite (owned_missing _ _ _ Hfirst). by eexists _, _.
  - by eexists.
  - repeat split; intros; apply with_session_result.
Qed.

End LeafTools.

(** ** The transactional scope *)

(** C6: the scope acquires a session before the body runs and hands that
    session to it; the journal gains, in this order, the acquisition, the
    invocation, a commit when the body returned and a rollback when it
    raised or was cancelled, and one release; after a commit the persisted
    entity set is what the body left in the session, after a rollback it
    is what it was; the body's outcome is passed on, and the session is
    not open afterwards. *)
Theorem transactional_scope {A} (execute : Session → outcome A * Session)
    (db : database) :
  let session := injected db in
  let h := handle session in
  let result := fst (execute session) in
  let db' := snd (with_session execute db) in
  fst (with_session execute db) = result ∧
  (∃ ending,
     journal db' = journal db ++ [Acquire h; Invoke h; ending; Release h] ∧
     match result with
     | Returned _ =>
         ending = Commit h ∧ todos db' = rows (snd (execute session))
     | Raised _ | Cancelled =>
         ending = Rollback h ∧ todos db' = todos db
     end) ∧
  length (filter (λ e, e = Release h)
            (drop (length (journal db)) (journal db'))) = 1 ∧
  (h ∉ open_sessions db') ∧
  open_sessions db' = filter (λ k, k ≠ h) (open_sessions db).
Proof.
  intros session h result db'.
  subst db' result h. unfold with_session, acquire. simpl.
  fold session.
  assert (∀ ending, ending ≠ Release (next_handle db) →
            length (filter (λ e, e = Release (next_handle db))
                      [Acquire (next_handle db); Invoke (next_handle db);
                       ending; Release (next_handle db)]) = 1) as Hcount.
  { intros ending Hne.
    rewrite !filter_cons_False by done.
    by rewrite filter_cons_True by done. }
  assert (filter (λ k, k ≠ next_handle db) (next_handle db :: open_sessions db)
            = filter (λ k, k ≠ next_handle db) (open_sessions db)) as Hopen.
  { rewrite filter_cons_False; [done | by intros Hne]. }
  assert (next_handle db ∉ filter (λ k, k ≠ next_handle db) (open_sessions db))
    as Hclosed.
  { rewrite list_elem_of_filter. by intros [Hne _]. }
  destruct (execute session) as [[v|e|] after]; simpl;
    rewrite <- !app_assoc, drop_app_length, Hopen; simpl;
    (split; [reflexivity|]);
    (split; [eexists; split; [reflexivity | done]|]);
    (split; [by apply Hcount | done]).
Qed.

(** ** The nested orchestrator tool *)

Section NestedTool.
Context {Client Tool World : Type}.
Context (run : Core.Agent Client LeafTool → string → World →
               outcome string * Core.Agent Client LeafTool * World).
Context (default_max_size : nat).



End NestedTool.

(** ** The orchestrator loop *)

Section Termination.
Import Orchestrator.
Context {Tool World : Type} `{ToolContract Tool World}.
Context (MAX_ROUNDS MAX_ATTEMPTS : nat).
Implicit Types (c : config (Tool:=Tool) (World:=World)) (a : agent (Tool:=Tool) (World:=World)).

Lemma step_terminal request c :
  terminal (current c) = true → step MAX_ROUNDS MAX_ATTEMPTS request c = c.
Proof. unfold step. by destruct (current c). Qed.

Lemma step_progress request c :
  within_cap MAX_ROUNDS (current c) →
  within_cap MAX_ROUNDS (current (step MAX_ROUNDS MAX_ATTEMPTS request c)) ∧
  (terminal (current (step MAX_ROUNDS MAX_ATTEMPTS request c)) = true ∨
   (remaining MAX_ROUNDS (current (step MAX_ROUNDS MAX_ATTEMPTS request c))
     < remaining MAX_ROUNDS (current c))%nat).
Proof.
  unfold step. destruct c as [[|round|round calls|answer|cond] a w]; simpl.
  - intros _. split; [lia | right; lia].
  - intros Hcap.
    destruct (query MAX_ATTEMPTS a w) as [[text|calls|] w']; simpl.
    + split; [exact I | by left].
    + destruct (decide (round < MAX_ROUNDS)%nat); simpl.
      * split; [done | right; lia].
      * split; [exact I | by left].
    + split; [exact I | by left].
  - intros Hcap.
    destruct (dispatch round 0 calls a w) as [[[cond|] a'] w']; simpl.
    + split; [exact I | by left].
    + split; [lia | right; lia].
  - intros _. split; [exact I | by left].
  - intros _. split; [exact I | by left].
Qed.

Lemma steps_progress request n c :
  within_cap MAX_ROUNDS (current c) →
  within_cap MAX_ROUNDS (current (steps MAX_ROUNDS MAX_ATTEMPTS request n c)) ∧
  (terminal (current (steps MAX_ROUNDS MAX_ATTEMPTS request n c)) = true ∨
   (remaining MAX_ROUNDS (current (steps MAX_ROUNDS MAX_ATTEMPTS request n c)) + n
     ≤ remaining MAX_ROUNDS (current c))%nat).
Proof.
  intros Hcap. induction n as [|n [IHcap IH]]; simpl; [split; auto; lia|].
  destruct (step_progress request _ IHcap) as [Hcap' Hstep].
  split; [exact Hcap'|].
  destruct IH as [Hterm|Hrem].
  - left. by rewrite step_terminal.
  - destruct Hstep as [Hterm|Hless]; [by left | right; lia].
Qed.

Lemma run_reaches_terminal request a w :
  terminal (current (steps MAX_ROUNDS MAX_ATTEMPTS request (budget MAX_ROUNDS)
                       {| current := AwaitingInput; self := a; world := w |}))
    = true.
Proof.
  destruct (steps_progress request (budget MAX_ROUNDS)
              {| current := AwaitingInput; self := a; world := w |} I)
    as [Hcap [Hterm|Hrem]]; [exact Hterm|].
  simpl in Hrem. unfold budget in Hrem.
  destruct (current (steps _ _ _ _ _)) as [|round|round calls|answer|cond];
    simpl in *; auto; lia.
Qed.

Lemma invoke_tool_client round index call a w :
  Core.client (invoke_tool round index call a w).1.2 = Core.client a.
Proof.
  unfold invoke_tool. destruct call as [name args].
  destruct (resolve a name) as [t|]; [|done].
  destruct (valid_arguments _ args); [|done].
  by destruct (execute t args w) as [[v|e|] w'].
Qed.

Lemma dispatch_client round index calls a w :
  Core.client (dispatch round index calls a w).1.2 = Core.client a.
Proof.
  revert index a w. induction calls as [|call calls IH]; intros index a w;
    [done|]. simpl.
  pose proof (invoke_tool_client round index call a w) as Hone.
  destruct (invoke_tool round index call a w) as [[[cond|] a'] w']; simpl in *;
    [done|]. by rewrite IH.
Qed.

Lemma step_client request c :
  Core.client (self (step MAX_ROUNDS MAX_ATTEMPTS request c))
    = Core.client (self c).
Proof.
  unfold step. destruct c as [[|round|round calls|answer|cond] a w]; simpl;
    [done| | |done|done].
  - destruct (query MAX_ATTEMPTS a w) as [[text|calls|] w']; simpl; [done| |done].
    by destruct (decide (round < MAX_ROUNDS)%nat).
  - pose proof (dispatch_client round 0 calls a w) as Hall.
    by destruct (dispatch round 0 calls a w) as [[[cond|] a'] w'].
Qed.

Lemma query_requests_tools attempts a w :
  always_requests_tools (Core.client a) →
  ∃ calls w', query attempts a w = (ToolCalls calls, w').
Proof.
  intros Hask.
  destruct (Hask (Core.snapshot (Core.message_storage a)) (catalog a)
              (Core.who_am_i a) w) as (calls & w' & Hreply).
  exists calls, w'. destruct attempts; simpl; by rewrite Hreply.
Qed.

Lemma invoke_tool_returns round index call a w :
  tools_return → (invoke_tool round index call a w).1.1 = None.
Proof.
  intros Hret. unfold invoke_tool. destruct call as [name args].
  destruct (resolve a name) as [t|]; [|done].
  destruct (valid_arguments _ args); [|done].
  destruct (Hret t args w) as (v & w' & Hex). by rewrite Hex.
Qed.

Lemma dispatch_returns round index calls a w :
  tools_return → (dispatch round index calls a w).1.1 = None.
Proof.
  intros Hret. revert index a w.
  induction calls as [|call calls IH]; intros index a w; [done|]. simpl.
  pose proof (invoke_tool_returns round index call a w Hret) as Hone.
  destruct (invoke_tool round index call a w) as [[[cond|] a'] w']; simpl in *;
    [done | apply IH].
Qed.

Lemma invoke_tool_condition round index call a w cond :
  (invoke_tool round index call a w).1.1 = Some cond →
  cond ≠ CapabilityUnavailable.
Proof.
  unfold invoke_tool. destruct call as [name args].
  destruct (resolve a name) as [t|]; [|done].
  destruct (valid_arguments _ args); [|done].
  destruct (execute t args w) as [[v|e|] w']; simpl; congruence.
Qed.

Lemma dispatch_condition round index calls a w cond :
  (dispatch round index calls a w).1.1 = Some cond →
  cond ≠ CapabilityUnavailable.
Proof.
  revert index a w. induction calls as [|call calls IH]; intros index a w;
    [done|]. simpl.
  pose proof (invoke_tool_condition round index call a w) as Hone.
  destruct (invoke_tool round index call a w) as [[[cond'|] a'] w']; simpl in *.
  - intros [= <-]. by apply Hone.
  - apply IH.
Qed.

(** What a cycle driven by a capability that always requests tools can be
    in: it never responds and never finds the capability unreachable. *)
Lemma step_pathological request c :
  always_requests_tools (Core.client (self c)) →
  match current c with
  | Responding _ | Failed CapabilityUnavailable => False
  | _ => True
  end →
  match current (step MAX_ROUNDS MAX_ATTEMPTS request c) with
  | Responding _ | Failed CapabilityUnavailable => False
  | _ => True
  end.
Proof.
  intros Hask. unfold step.
  destruct c as [[|round|round calls|answer|cond] a w]; simpl in *;
    [done| | |done|done]; intros _.
  - destruct (query_requests_tools MAX_ATTEMPTS a w Hask) as (calls & w' & ->).
    by destruct (decide (round < MAX_ROUNDS)%nat).
  - pose proof (dispatch_condition round 0 calls a w) as Hcond.
    destruct (dispatch round 0 calls a w) as [[[cond|] a'] w']; simpl in *;
      [|done].
    specialize (Hcond cond eq_refl). by destruct cond.
Qed.

(** When the tools return as well, the only failure is the exceeded cap. *)
Lemma step_exceeds request c :
  always_requests_tools (Core.client (self c)) →
  tools_return →
  match current c with
  | Responding _ => False
  | Failed cond => cond = ToolLoopExceeded
  | _ => True
  end →
  match current (step MAX_ROUNDS MAX_ATTEMPTS request c) with
  | Responding _ => False
  | Failed cond => cond = ToolLoopExceeded
  | _ => True
  end.
Proof.
  intros Hask Hret. unfold step.
  destruct c as [[|round|round calls|answer|cond] a w]; simpl in *;
    [done| | |done|done]; intros _.
  - destruct (query_requests_tools MAX_ATTEMPTS a w Hask) as (calls & w' & ->).
    by destruct (decide (round < MAX_ROUNDS)%nat).
  - pose proof (dispatch_returns round 0 calls a w Hret) as Hnone.
    by destruct (dispatch round 0 calls a w) as [[[cond|] a'] w'].
Qed.

Lemma steps_client request n c :
  Core.client (self (steps MAX_ROUNDS MAX_ATTEMPTS request n c))
    = Core.client (self c).
Proof.
  induction n as [|n IH]; simpl; [done|]. by rewrite step_client.
Qed.

Lemma steps_pathological request n c :
  always_requests_tools (Core.client (self c)) →
  current c = AwaitingInput →
  match current (steps MAX_ROUNDS MAX_ATTEMPTS request n c) with
  | Responding _ | Failed CapabilityUnavailable => False
  | _ => True
  end.
Proof.
  intros Hask Hstart. induction n as [|n IH]; simpl; [by rewrite Hstart|].
  apply step_pathological; [by rewrite steps_client | exact IH].
Qed.

Lemma steps_exceeds request n c :
  always_requests_tools (Core.client (self c)) →
  tools_return →
  current c = AwaitingInput →
  match current (steps MAX_ROUNDS MAX_ATTEMPTS request n c) with
  | Responding _ => False
  | Failed cond => cond = ToolLoopExceeded
  | _ => True
  end.
Proof.
  intros Hask Hret Hstart. induction n as [|n IH]; simpl; [by rewrite Hstart|].
  apply step_exceeds; [by rewrite steps_client | done | exact IH].
Qed.

(** C9: the cycle is bounded.  Whatever the capability and the tools do,
    [run] has reached a terminal state after [2 * MAX_ROUNDS + 2]
    transitions, from which no transition leads away, and so it returns an
    answer or a failure.  With a capability that requests tool calls
    whatever it is shown, that terminal state is [Failed], not with
    [CapabilityUnavailable]; and when the tools it asks for return, it is
    [Failed] with [ToolLoopExceeded]. *)
Theorem tool_loop_bounded (request : string) a (w : World) :
  let final :=
    steps MAX_ROUNDS MAX_ATTEMPTS request (budget MAX_ROUNDS)
      {| current := AwaitingInput; self := a; world := w |} in
  terminal (current final) = true ∧
  step MAX_ROUNDS MAX_ATTEMPTS request final = final ∧
  (∃ r, (run MAX_ROUNDS MAX_ATTEMPTS request a w).1.1 = Some r) ∧
  (always_requests_tools (Core.client a) →
   ∃ cond,
     current final = Failed cond ∧
     (run MAX_ROUNDS MAX_ATTEMPTS request a w).1.1 = Some (inr cond) ∧
     cond ≠ CapabilityUnavailable ∧
     (tools_return → cond = ToolLoopExceeded)).
Proof.
  intros final.
  pose proof (run_reaches_terminal request a w) as Hterm. fold final in Hterm.
  split; [exact Hterm|]. split; [by apply step_terminal|].
  unfold run. fold final. split.
  { destruct (current final); simpl in *; try done; by eexists. }
  intros Hask.
  pose proof (steps_pathological request (budget MAX_ROUNDS)
                {| current := AwaitingInput; self := a; world := w |}
                Hask eq_refl) as Hpath.
  fold final in Hpath.
  destruct (current final) as [|round|round calls|answer|cond] eqn:Hfinal;
    simpl in *; try done.
  exists cond. split; [done|]. split; [done|]. split.
  { intros ->. done. }
  intros Hret.
  pose proof (steps_exceeds request (budget MAX_ROUNDS)
                {| current := AwaitingInput; self := a; world := w |}
                Hask Hret eq_refl) as Hexc.
  fold final in Hexc. by rewrite Hfinal in Hexc.
Qed.

End Termination.

(** ** The message history *)

Section History.
Import Core.
Implicit Types (l : list Message) (h : MessageStorage).














End History.


(** ** The properties on the sample data *)

Lemma agent_scoping_witness :
  unique_ids (todos Sample.db) ∧
  Sample.rent ∈ todos Sample.db ∧
  Models.agent_id Sample.rent ≠ Core.get_id (parent_agent Sample.tool_123) ∧
  (∃ r, fst (UpdateTodoTool.execute Sample.tool_123 (id Sample.rent)
               "Pay less" "" Sample.db) = Returned r ∧
        Py.get "success" r = Some (VBool false) ∧
        todos (snd (UpdateTodoTool.execute Sample.tool_123 (id Sample.rent)
                      "Pay less" "" Sample.db)) = todos Sample.db).
Proof.
  assert (unique_ids (todos Sample.db)) as Hpk
    by (apply (bool_decide_unpack _); vm_compute; exact I).
  assert (Sample.rent ∈ todos Sample.db) as Hin by (right; left).
  assert (Models.agent_id Sample.rent
            ≠ Core.get_id (parent_agent Sample.tool_123)) as Hne by done.
  repeat (split; [assumption|]).
  exact (proj1 (proj2 (agent_scoping Sample.tool_123 Sample.db) Sample.rent
                  "Pay less" "" Hpk Hin Hne)).
Defined.

Lemma update_nonexistent_witness :
  (∀ t, t ∈ todos Sample.db → ¬ owned Sample.tool_123 "todo_ffffffff" t) ∧
  ∃ message,
    fst (UpdateTodoTool.execute Sample.tool_123 "todo_ffffffff" "Buy bread" ""
           Sample.db)
      = Returned (VDict [("success", VBool false); ("message", VStr message)]) ∧
    contains message "todo_ffffffff" ∧
    todos (snd (UpdateTodoTool.execute Sample.tool_123 "todo_ffffffff"
                  "Buy bread" "" Sample.db)) = todos Sample.db.
Proof.
  assert (∀ t, t ∈ todos Sample.db → ¬ owned Sample.tool_123 "todo_ffffffff" t)
    as Hnone.
  { apply Forall_forall, (bool_decide_unpack _). vm_compute. exact I. }
  split; [exact Hnone|].
  exact (update_nonexistent Sample.tool_123 "todo_ffffffff" "Buy bread" ""
           Sample.db Hnone).
Defined.

Lemma delete_existing_witness :
  unique_ids (todos Sample.db) ∧
  Sample.milk ∈ todos Sample.db ∧
  Models.agent_id Sample.milk = Core.get_id (parent_agent Sample.tool_123) ∧
  ∃ before after r1 r2,
    let db1 := snd (DeleteTodoTool.execute Sample.tool_123 (id Sample.milk)
                      Sample.db) in
    let db2 := snd (DeleteTodoTool.execute Sample.tool_123 (id Sample.milk) db1) in
    todos Sample.db = before ++ Sample.milk :: after ∧
    fst (DeleteTodoTool.execute Sample.tool_123 (id Sample.milk) Sample.db)
      = Returned r1 ∧
    Py.get "success" r1 = Some (VBool true) ∧
    todos db1 = before ++ after ∧
    (Sample.milk ∉ todos db1) ∧
    fst (DeleteTodoTool.execute Sample.tool_123 (id Sample.milk) db1)
      = Returned r2 ∧
    Py.get "success" r2 = Some (VBool false) ∧
    todos db2 = todos db1.
Proof.
  assert (unique_ids (todos Sample.db)) as Hpk
    by (apply (bool_decide_unpack _); vm_compute; exact I).
  assert (Sample.milk ∈ todos Sample.db) as Hin by left.
  assert (Models.agent_id Sample.milk
            = Core.get_id (parent_agent Sample.tool_123)) as Hmine
    by reflexivity.
  repeat (split; [assumption|]).
  exact (delete_existing Sample.tool_123 Sample.db Sample.milk Hpk Hin Hmine).
Defined.

Lemma create_then_get_all_witness :
  todos Sample.empty_db = [] ∧
  Core.get_id (parent_agent Sample.tool_456)
    ≠ Core.get_id (parent_agent Sample.tool_123) ∧
  let db1 :=
    snd (CreateTodoTool.execute Sample.tool_123 "Buy milk" "two litres"
           0xdeadbeef Sample.empty_db) in
  (∃ entry,
     fst (GetAllTodosTool.execute Sample.tool_123 db1) = Returned (VList [entry]) ∧
     Py.get "title" entry = Some (VStr "Buy milk")) ∧
  fst (GetAllTodosTool.execute Sample.tool_456 db1) = Returned (VList []).
Proof.
  assert (Core.get_id (parent_agent Sample.tool_456)
            ≠ Core.get_id (parent_agent Sample.tool_123)) as Hne by done.
  split; [reflexivity|]. split; [exact Hne|].
  exact (create_then_get_all Sample.tool_123 Sample.tool_456 "two litres"
           0xdeadbeef Sample.empty_db eq_refl Hne).
Defined.

Lemma tool_loop_bounded_witness :
  Orchestrator.always_requests_tools (Core.client Sample.greedy_agent) ∧
  Orchestrator.tools_return (Tool:=unit) (World:=nat) ∧
  (Orchestrator.run 3 2 "list my todos" Sample.greedy_agent 0).1.1
    = Some (inr Orchestrator.ToolLoopExceeded).
Proof.
  assert (Orchestrator.always_requests_tools (Core.client Sample.greedy_agent))
    as Hask by (intros history cat prompt w; by eexists _, _).
  assert (Orchestrator.tools_return (Tool:=unit) (World:=nat)) as Hret
    by (intros t args w; by eexists _, _).
  split; [exact Hask|]. split; [exact Hret|].
  destruct (tool_loop_bounded 3 2 "list my todos" Sample.greedy_agent 0)
    as (_ & _ & _ & Hloop).
  destruct (Hloop Hask) as (cond & _ & Hrun & _ & Hcap).
  by rewrite Hrun, (Hcap Hret).
Defined.

(** The definitions on concrete inputs. *)

Example create_sample :
  CreateTodoTool.execute Sample.tool_123 "Buy milk" "two litres"
    (0xdeadbeef * 2 ^ 96) Sample.empty_db
  = (Returned (VDict [("id", VStr "todo_deadbeef"); ("title", VStr "Buy milk");
                      ("description", VStr "two litres")]),
     {| todos := [{| id := "todo_deadbeef"; Models.agent_id := "123";
                     Models.title := "Buy milk";
                     Models.description := "two litres" |}];
        next_handle := 1; open_sessions := [];
        journal := [Acquire 0; Invoke 0; Commit 0; Release 0] |}).
Proof. vm_compute. reflexivity. Qed.

Example uuid4_sample :
  Uuid.hex (Uuid.uuid4 (2 ^ 128 - 1)) = "ffffffffffff4fffbfffffffffffffff".
Proof. vm_compute. reflexivity. Qed.

Example update_foreign_sample :
  UpdateTodoTool.execute Sample.tool_123 "todo_0000000b" "Pay less" "" Sample.db
  = (Returned (VDict [("success", VBool false);
                      ("message", VStr "No todo found with ID todo_0000000b")]),
     {| todos := [Sample.milk; Sample.rent]; next_handle := 1;
        open_sessions := [];
        journal := [Acquire 0; Invoke 0; Commit 0; Release 0] |}).
Proof. vm_compute. reflexivity. Qed.

Example update_own_sample :
  todos (snd (UpdateTodoTool.execute Sample.tool_456 "todo_0000000b" "Pay less"
                "by Friday" Sample.db))
  = [Sample.milk;
     {| id := "todo_0000000b"; Models.agent_id := "456";
        Models.title := "Pay less"; Models.description := "by Friday" |}].
Proof. vm_compute. reflexivity. Qed.

Example delete_sample :
  DeleteTodoTool.execute Sample.tool_123 "todo_0000000a" Sample.db
  = (Returned (VDict [("success", VBool true);
                      ("message", VStr "Todo 'Buy milk' deleted")]),
     {| todos := [Sample.rent]; next_handle := 1; open_sessions := [];
        journal := [Acquire 0; Invoke 0; Commit 0; Release 0] |}).
Proof. vm_compute. reflexivity. Qed.

Example get_all_sample :
  fst (GetAllTodosTool.execute Sample.tool_456 Sample.db)
  = Returned (VList [VDict [("id", VStr "todo_0000000b");
                            ("title", VStr "Pay rent");
                            ("description", VStr "")]]).
Proof. vm_compute. reflexivity. Qed.

Example rollback_sample :
  with_session (λ s, (Raised (OtherError "boom") : outcome value,
                      add Sample.milk s)) Sample.empty_db
  = (Raised (OtherError "boom"),
     {| todos := []; next_handle := 1; open_sessions := [];
        journal := [Acquire 0; Invoke 0; Rollback 0; Release 0] |}).
Proof. vm_compute. reflexivity. Qed.

Example history_fifo_sample :
  Core.snapshot
    (Core.appends [Sample.says "one"; Sample.says "two"; Sample.says "three"]
       (Core.new_storage 2))
  = [Sample.says "two"; Sample.says "three"].
Proof. vm_compute. reflexivity. Qed.

Example history_pair_sample :
  Core.snapshot
    (Core.appends [Sample.asks "c1"; Sample.tells "c1"; Sample.says "thanks"]
       (Core.new_storage 2))
  = [Sample.says "thanks"].
Proof. vm_compute. reflexivity. Qed.

Example history_pending_sample :
  Core.snapshot
    (Core.appends [Sample.says "list"; Sample.asks "c1"] (Core.new_storage 3))
  = [Sample.says "list"; Sample.asks "c1"].
Proof. vm_compute. reflexivity. Qed.

Example history_fits_sample :
  Core.snapshot
    (Core.appends [Sample.says "list"; Sample.asks "c1"; Sample.tells "c1"]
       (Core.new_storage 3))
  = [Sample.says "list"; Sample.asks "c1"; Sample.tells "c1"].
Proof. vm_compute. reflexivity. Qed.

Example run_greedy_sample :
  let '(answer, a, w) := Orchestrator.run 1 2 "hi" Sample.greedy_agent 0 in
  answer = Some (inr Orchestrator.ToolLoopExceeded) ∧
  w = 1 ∧
  Core.snapshot (Core.message_storage a)
  = [Sample.says "hi";
     {| Core.msg_role := Core.assistant;
        Core.msg_content := Core.ToolCall "call_0_0" "echo" (VDict []) |};
     {| Core.msg_role := Core.tool;
        Core.msg_content := Core.ToolResult "call_0_0" (VDict []) |}].
Proof. vm_compute. done. Qed.

(** ** More on the leaf tools *)

Section LeafToolEffects.
Context {Client Tool : Type}.
Implicit Types (self : BaseTool Client Tool) (db : database) (t : TodoItem).

(** Under the scope a leaf tool persists what its function leaves in the
    acquired session. *)
Lemma update_persists self todo_id title description db :
  todos (snd (UpdateTodoTool.execute self todo_id title description db))
    = rows (snd (UpdateTodoTool.execute_wrapped self todo_id title description
                   (injected db))).
Proof.
  unfold UpdateTodoTool.execute.
  destruct (UpdateTodoTool.execute_wrapped self todo_id title description
              (injected db)) as [r s'] eqn:Hex.
  assert (∃ v, r = Returned v) as [v ->].
  { unfold UpdateTodoTool.execute_wrapped in Hex.
    destruct (first _ _) as [[i t]|]; inversion Hex; by eexists. }
  by destruct (with_session_returned _ db v s' Hex) as [_ ->].
Qed.

Lemma delete_persists self todo_id db :
  todos (snd (DeleteTodoTool.execute self todo_id db))
    = rows (snd (DeleteTodoTool.execute_wrapped self todo_id (injected db))).
Proof.
  unfold DeleteTodoTool.execute.
  destruct (DeleteTodoTool.execute_wrapped self todo_id (injected db))
    as [r s'] eqn:Hex.
  assert (∃ v, r = Returned v) as [v ->].
  { unfold DeleteTodoTool.execute_wrapped in Hex.
    destruct (first _ _) as [[i t]|]; inversion Hex; by eexists. }
  by destruct (with_session_returned _ db v s' Hex) as [_ ->].
Qed.

Lemma with_session_result_update self todo_id title description db :
  fst (UpdateTodoTool.execute self todo_id title description db)
    = fst (UpdateTodoTool.execute_wrapped self todo_id title description
             (injected db)).
Proof. apply with_session_result. Qed.

Lemma with_session_result_delete self todo_id db :
  fst (DeleteTodoTool.execute self todo_id db)
    = fst (DeleteTodoTool.execute_wrapped self todo_id (injected db)).
Proof. apply with_session_result. Qed.

(** The first row that satisfies a criterion, as a split of the rows. *)
Lemma first_split (P : TodoItem → Prop) `{∀ t, Decision (P t)} (s : Session) i t :
  first P s = Some (i, t) ↔
  ∃ before after,
    rows s = before ++ t :: after ∧ length before = i ∧ P t ∧
    Forall (λ u, ¬ P u) before.
Proof.
  unfold first. rewrite list_find_Some. split.
  - intros (Hi & HP & Hbefore).
    exists (take i (rows s)), (drop (S i) (rows s)).
    split; [by rewrite take_drop_middle|].
    split; [apply length_take_le, Nat.lt_le_incl; by eapply lookup_lt_Some|].
    split; [done|]. apply Forall_forall. intros u Hu.
    apply list_elem_of_lookup in Hu as [j Hj].
    pose proof (lookup_lt_Some _ _ _ Hj) as Hlt. rewrite length_take in Hlt.
    rewrite lookup_take_lt in Hj by lia. apply (Hbefore j); [done | lia].
  - intros (before & after & -> & <- & HP & Hbefore).
    split; [by rewrite list_lookup_middle|]. split; [done|].
    intros j u Hj Hlt. rewrite lookup_app_l in Hj by done.
    rewrite Forall_forall in Hbefore. apply Hbefore.
    by eapply list_elem_of_lookup_2.
Qed.

Lemma first_of_split (P : TodoItem → Prop) `{∀ t, Decision (P t)} (s : Session)
    before t after :
  rows s = before ++ t :: after → P t → Forall (λ u, ¬ P u) before →
  first P s = Some (length before, t).
Proof.
  intros. apply (proj2 (first_split P s (length before) t)).
  by exists before, after.
Qed.

Lemma first_exists (P : TodoItem → Prop) `{∀ t, Decision (P t)} (s : Session) :
  Exists P (rows s) →
  ∃ before t after,
    rows s = before ++ t :: after ∧ P t ∧ Forall (λ u, ¬ P u) before ∧
    first P s = Some (length before, t).
Proof.
  intros Hex. destruct (first P s) as [[i t]|] eqn:Hfirst.
  - pose proof Hfirst as Hsplit.
    apply first_split in Hsplit as (before & after & Hrows & <- & HP & Hbefore).
    by exists before, t, after.
  - unfold first in Hfirst. apply list_find_None in Hfirst.
    by apply Forall_Exists_neg in Hfirst.
Qed.

Lemma update_wrapped_found self todo_id title description (s : Session) i t :
  first (owned self todo_id) s = Some (i, t) →
  UpdateTodoTool.execute_wrapped self todo_id title description s
    = (Returned (VDict [("success", VBool true);
                        ("message", VStr ("Todo '" +:+ title +:+ "' updated"));
                        ("todo", todo_dict (rewritten t title description))]),
       write i (rewritten t title description) s).
Proof.
  intros Hfirst. unfold owned in Hfirst.
  unfold UpdateTodoTool.execute_wrapped. by rewrite Hfirst.
Qed.

Lemma update_wrapped_missing self todo_id title description (s : Session) :
  first (owned self todo_id) s = None →
  UpdateTodoTool.execute_wrapped self todo_id title description s
    = (Returned (not_found todo_id), s).
Proof.
  intros Hfirst. unfold owned in Hfirst.
  unfold UpdateTodoTool.execute_wrapped. by rewrite Hfirst.
Qed.

Lemma delete_wrapped_found self todo_id (s : Session) i t :
  first (owned self todo_id) s = Some (i, t) →
  DeleteTodoTool.execute_wrapped self todo_id s
    = (Returned (VDict [("success", VBool true);
                        ("message",
                         VStr ("Todo '" +:+ Models.title t +:+ "' deleted"))]),
       Orm.delete i s).
Proof.
  intros Hfirst. unfold owned in Hfirst.
  unfold DeleteTodoTool.execute_wrapped. by rewrite Hfirst.
Qed.

Lemma delete_wrapped_missing self todo_id (s : Session) :
  first (owned self todo_id) s = None →
  DeleteTodoTool.execute_wrapped self todo_id s
    = (Returned (not_found todo_id), s).
Proof.
  intros Hfirst. unfold owned in Hfirst.
  unfold DeleteTodoTool.execute_wrapped. by rewrite Hfirst.
Qed.

Lemma write_middle (s : Session) before t after x :
  rows s = before ++ t :: after →
  rows (write (length before) x s) = before ++ x :: after.
Proof.
  intros Hrows. unfold write; simpl. rewrite Hrows.
  rewrite insert_app_r_alt by done. by rewrite Nat.sub_diag.
Qed.

Lemma delete_middle_rows (s : Session) before t after :
  rows s = before ++ t :: after →
  rows (Orm.delete (length before) s) = before ++ after.
Proof. intros Hrows. unfold Orm.delete; simpl. rewrite Hrows. apply delete_middle. Qed.

(** The two ways [update_todo] and [delete_todo] go, on the persisted
    rows. *)
Lemma update_cases self todo_id title description db :
  (∃ before t after,
     todos db = before ++ t :: after ∧
     owned self todo_id t ∧
     Forall (λ u, ¬ owned self todo_id u) before ∧
     fst (UpdateTodoTool.execute self todo_id title description db)
       = Returned
           (VDict [("success", VBool true);
                   ("message", VStr ("Todo '" +:+ title +:+ "' updated"));
                   ("todo", todo_dict (rewritten t title description))]) ∧
     todos (snd (UpdateTodoTool.execute self todo_id title description db))
       = before ++ rewritten t title description :: after) ∨
  (Forall (λ u, ¬ owned self todo_id u) (todos db) ∧
   fst (UpdateTodoTool.execute self todo_id title description db)
     = Returned (not_found todo_id) ∧
   todos (snd (UpdateTodoTool.execute self todo_id title description db))
     = todos db).
Proof.
  rewrite with_session_result_update, update_persists.
  destruct (first (owned self todo_id) (injected db)) as [[i t]|] eqn:Hfirst.
  - left. pose proof Hfirst as Hsplit.
    apply first_split in Hsplit as (before & after & Hrows & <- & Hown & Hbefore).
    exists before, t, after. do 3 (split; [done|]).
    rewrite (update_wrapped_found _ _ _ _ _ _ _ Hfirst). simpl.
    split; [done|]. by apply (write_middle (injected db) before t after).
  - right. rewrite (update_wrapped_missing _ _ _ _ _ Hfirst).
    split; [|done]. unfold first in Hfirst. by apply list_find_None in Hfirst.
Qed.

Lemma delete_cases self todo_id db :
  (∃ before t after,
     todos db = before ++ t :: after ∧
     owned self todo_id t ∧
     Forall (λ u, ¬ owned self todo_id u) before ∧
     fst (DeleteTodoTool.execute self todo_id db)
       = Returned
           (VDict [("success", VBool true);
                   ("message",
                    VStr ("Todo '" +:+ Models.title t +:+ "' deleted"))]) ∧
     todos (snd (DeleteTodoTool.execute self todo_id db)) = before ++ after) ∨
  (Forall (λ u, ¬ owned self todo_id u) (todos db) ∧
   fst (DeleteTodoTool.execute self todo_id db) = Returned (not_found todo_id) ∧
   todos (snd (DeleteTodoTool.execute self todo_id db)) = todos db).
Proof.
  rewrite with_session_result_delete, delete_persists.
  destruct (first (owned self todo_id) (injected db)) as [[i t]|] eqn:Hfirst.
  - left. pose proof Hfirst as Hsplit.
    apply first_split in Hsplit as (before & after & Hrows & <- & Hown & Hbefore).
    exists before, t, after. do 3 (split; [done|]).
    rewrite (delete_wrapped_found _ _ _ _ _ Hfirst). simpl.
    split; [done|]. by apply (delete_middle_rows (injected db) before t after).
  - right. rewrite (delete_wrapped_missing _ _ _ Hfirst).
    split; [|done]. unfold first in Hfirst. by apply list_find_None in Hfirst.
Qed.

Lemma owned_rewritten self todo_id t title description :
  owned self todo_id (rewritten t title description) ↔ owned self todo_id t.
Proof. done. Qed.

(** X1: [update_todo] on an identifier under which the executing agent
    owns an entity rewrites the first such entity: its title and
    description become the arguments, its identifier and owner stay, and
    every other entity stays as it was and where it was.  It answers
    [{success: True}] with the message "Todo '<new title>' updated" and
    the dictionary of the rewritten entity. *)
Theorem update_existing self todo_id title description db :
  Exists (owned self todo_id) (todos db) →
  ∃ before t after,
    todos db = before ++ t :: after ∧
    owned self todo_id t ∧
    Forall (λ u, ¬ owned self todo_id u) before ∧
    fst (UpdateTodoTool.execute self todo_id title description db)
      = Returned
          (VDict [("success", VBool true);
                  ("message", VStr ("Todo '" +:+ title +:+ "' updated"));
                  ("todo", VDict [("id", VStr todo_id); ("title", VStr title);
                                  ("description", VStr description)])]) ∧
    todos (snd (UpdateTodoTool.execute self todo_id title description db))
      = before ++ rewritten t title description :: after.
Proof.
  intros Hex.
  destruct (first_exists (owned self todo_id) (injected db) Hex)
    as (before & t & after & Hrows & Hown & Hbefore & Hfirst).
  exists before, t, after. do 3 (split; [done|]).
  rewrite with_session_result_update, update_persists.
  rewrite (update_wrapped_found _ _ _ _ _ _ _ Hfirst). simpl.
  destruct Hown as [<- _]. split; [done|].
  by apply (write_middle (injected db) before t after).
Qed.

(** X2: [update_todo] is idempotent: a second call with the same
    arguments returns what the first returned and leaves the entity set as
    the first left it. *)
Theorem update_idempotent self todo_id title description db :
  let once := UpdateTodoTool.execute self todo_id title description db in
  let twice :=
    UpdateTodoTool.execute self todo_id title description (snd once) in
  fst twice = fst once ∧ todos (snd twice) = todos (snd once).
Proof.
  intros once twice. subst once twice.
  destruct (update_cases self todo_id title description db)
    as [(before & t & after & Hrows & Hown & Hbefore & Hres & Hdb)
       |(Hnone & Hres & Hdb)].
  - set (db1 := snd (UpdateTodoTool.execute self todo_id title description db))
      in *.
    pose proof (first_of_split (owned self todo_id) (injected db1) before
                  (rewritten t title description) after Hdb Hown Hbefore)
      as Hfirst.
    rewrite with_session_result_update, update_persists.
    rewrite (update_wrapped_found _ _ _ _ _ _ _ Hfirst). cbn [fst snd].
    rewrite Hres. split; [done|].
    by rewrite (write_middle (injected db1) before
                  (rewritten t title description) after).
  - set (db1 := snd (UpdateTodoTool.execute self todo_id title description db))
      in *.
    destruct (update_cases self todo_id title description db1)
      as [(before & t & after & Hrows & Hown & _)|(_ & Hres' & Hdb')].
    + rewrite Hdb in Hrows. rewrite Forall_forall in Hnone.
      exfalso. apply (Hnone t); [|done]. rewrite Hrows.
      apply elem_of_app. right. left.
    + by rewrite Hres', Hres, Hdb'.
Qed.

(** X3: [update_todo] changes no identifier and no owner, and neither
    adds nor removes an entity. *)
Theorem update_keeps_keys self todo_id title description db :
  let db' := snd (UpdateTodoTool.execute self todo_id title description db) in
  id <$> todos db' = id <$> todos db ∧
  Models.agent_id <$> todos db' = Models.agent_id <$> todos db ∧
  length (todos db') = length (todos db).
Proof.
  intros db'. subst db'.
  destruct (update_cases self todo_id title description db)
    as [(before & t & after & Hrows & _ & _ & _ & ->)|(_ & _ & ->)]; [|done].
  rewrite Hrows, !fmap_app, !length_app. done.
Qed.

Lemma get_all_listing self db :
  fst (GetAllTodosTool.execute self db)
    = Returned (VList (listing (Core.get_id (parent_agent self)) (todos db))).
Proof. destruct (get_all_result self db) as [Hres _]. by rewrite Hres. Qed.

Lemma create_persists self title description random db :
  todos (snd (CreateTodoTool.execute self title description random db))
    = todos db ++
      [{| id := "todo_" +:+ slice_to 8 (Uuid.hex (Uuid.uuid4 random));
          Models.agent_id := Core.get_id (parent_agent self);
          Models.title := title; Models.description := description |}].
Proof. by destruct (create_result self title description random db) as [_ ->]. Qed.

Lemma listing_app agent (l k : table) :
  listing agent (l ++ k) = listing agent l ++ listing agent k.
Proof. unfold listing. by rewrite filter_app, fmap_app. Qed.

Lemma listing_foreign agent t (l : table) :
  Models.agent_id t ≠ agent → listing agent (t :: l) = listing agent l.
Proof. intros Hne. unfold listing. by rewrite filter_cons_False. Qed.

Lemma listing_own agent t (l : table) :
  Models.agent_id t = agent →
  listing agent (t :: l) = todo_dict t :: listing agent l.
Proof. intros Heq. unfold listing. by rewrite filter_cons_True. Qed.

Lemma new_id_not_owned self todo_id (l : table) :
  todo_id ∉ id <$> l → Forall (λ u, ¬ owned self todo_id u) l.
Proof.
  intros Hnew. apply Forall_forall. intros u Hu [Hid _].
  apply Hnew. rewrite <- Hid. by apply list_elem_of_fmap_2.
Qed.

(** X4: what an agent creates, updates or deletes does not show in what
    an agent with another identifier lists: [get_all_todos] under the
    other agent returns the same list before and after. *)
Theorem other_agents_untouched self (other : BaseTool Client Tool) db :
  Core.get_id (parent_agent other) ≠ Core.get_id (parent_agent self) →
  (∀ title description random,
     fst (GetAllTodosTool.execute other
            (snd (CreateTodoTool.execute self title description random db)))
       = fst (GetAllTodosTool.execute other db)) ∧
  (∀ todo_id title description,
     fst (GetAllTodosTool.execute other
            (snd (UpdateTodoTool.execute self todo_id title description db)))
       = fst (GetAllTodosTool.execute other db)) ∧
  (∀ todo_id,
     fst (GetAllTodosTool.execute other
            (snd (DeleteTodoTool.execute self todo_id db)))
       = fst (GetAllTodosTool.execute other db)).
Proof.
  intros Hne. split; [|split].
  - intros title description random.
    rewrite !get_all_listing, create_persists, listing_app.
    rewrite listing_foreign by (simpl; congruence).
    by rewrite app_nil_r.
  - intros todo_id title description. rewrite !get_all_listing.
    destruct (update_cases self todo_id title description db)
      as [(before & t & after & Hrows & [_ Hown] & _ & _ & ->)|(_ & _ & ->)];
      [|done].
    rewrite Hrows, !listing_app.
    by rewrite !listing_foreign by (simpl; congruence).
  - intros todo_id. rewrite !get_all_listing.
    destruct (delete_cases self todo_id db)
      as [(before & t & after & Hrows & [_ Hown] & _ & _ & ->)|(_ & _ & ->)];
      [|done].
    rewrite Hrows, !listing_app.
    by rewrite listing_foreign by congruence.
Qed.

(** X5: [create_todo] followed by [delete_todo] on the created
    identifier gives back the entity set as it was, when the identifier
    drawn is new to the store; [delete_todo] then answers
    [{success: True}] and names the created title. *)
Theorem create_then_delete self title description random db :
  let todo_id := "todo_" +:+ slice_to 8 (Uuid.hex (Uuid.uuid4 random)) in
  todo_id ∉ id <$> todos db →
  let db1 := snd (CreateTodoTool.execute self title description random db) in
  (∃ entry,
     fst (CreateTodoTool.execute self title description random db)
       = Returned entry ∧
     Py.get "id" entry = Some (VStr todo_id)) ∧
  fst (DeleteTodoTool.execute self todo_id db1)
    = Returned (VDict [("success", VBool true);
                       ("message", VStr ("Todo '" +:+ title +:+ "' deleted"))]) ∧
  todos (snd (DeleteTodoTool.execute self todo_id db1)) = todos db.
Proof.
  intros todo_id Hnew db1.
  pose proof (new_id_not_owned self todo_id (todos db) Hnew) as Hfresh.
  pose proof (create_persists self title description random db) as Hdb1.
  fold db1 todo_id in Hdb1.
  destruct (create_result self title description random db) as [Hres _].
  split; [eexists; by rewrite Hres|].
  pose proof (first_of_split (owned self todo_id) (injected db1) (todos db)
                _ [] Hdb1 (conj eq_refl eq_refl) Hfresh) as Hfirst.
  rewrite with_session_result_delete, delete_persists.
  rewrite (delete_wrapped_found _ _ _ _ _ Hfirst). cbn [fst snd].
  split; [done|].
  rewrite (delete_middle_rows (injected db1) (todos db) _ [] Hdb1).
  by rewrite app_nil_r.
Qed.

(** X6: a created entity is listed last: when the identifier drawn is
    new to the store, [get_all_todos] after [create_todo] returns what it
    returned before, followed by the dictionary [create_todo] returned. *)
Theorem create_extends_listing self title description random db :
  "todo_" +:+ slice_to 8 (Uuid.hex (Uuid.uuid4 random)) ∉ id <$> todos db →
  ∃ entries entry,
    fst (GetAllTodosTool.execute self db) = Returned (VList entries) ∧
    fst (CreateTodoTool.execute self title description random db)
      = Returned entry ∧
    fst (GetAllTodosTool.execute self
           (snd (CreateTodoTool.execute self title description random db)))
      = Returned (VList (entries ++ [entry])).
Proof.
  intros _.
  destruct (create_result self title description random db) as [Hres _].
  eexists _, _. split; [apply get_all_listing|]. split; [by rewrite Hres|].
  rewrite get_all_listing, create_persists, listing_app.
  by rewrite listing_own.
Qed.

(** X7: a successful [delete_todo] takes one entry out of what the
    executing agent lists, the first with the identifier; the entries
    before and after it stay, in their order. *)
Theorem delete_shrinks_listing self todo_id db :
  Exists (owned self todo_id) (todos db) →
  ∃ earlier t later,
    fst (GetAllTodosTool.execute self db)
      = Returned (VList (todo_dict <$> (earlier ++ t :: later))) ∧
    id t = todo_id ∧
    Forall (λ u, id u ≠ todo_id) earlier ∧
    fst (DeleteTodoTool.execute self todo_id db)
      = Returned (VDict [("success", VBool true);
                         ("message",
                          VStr ("Todo '" +:+ Models.title t +:+ "' deleted"))]) ∧
    fst (GetAllTodosTool.execute self (snd (DeleteTodoTool.execute self todo_id db)))
      = Returned (VList (todo_dict <$> (earlier ++ later))).
Proof.
  intros Hex.
  destruct (delete_cases self todo_id db)
    as [(before & t & after & Hrows & [Hid Hown] & Hbefore & Hres & Hdb)
       |(Hnone & _)];
    [|by apply Forall_Exists_neg in Hnone].
  set (mine := λ r, Models.agent_id r = Core.get_id (parent_agent self)).
  exists (filter mine before), t, (filter mine after).
  rewrite !get_all_listing, Hdb, Hrows. unfold listing. fold mine.
  rewrite !filter_app, filter_cons_True by done.
  split; [done|]. split; [done|]. split; [|done].
  apply Forall_forall. intros u Hu Hsame.
  apply list_elem_of_filter in Hu as [Hmine Hu].
  rewrite Forall_forall in Hbefore. by apply (Hbefore u Hu).
Qed.

(** X8: [delete_todo] on an identifier under which the executing agent
    owns no entity answers [{success: False}] with a message that contains
    the identifier, and leaves the entity set as it was. *)
Theorem delete_nonexistent self todo_id db :
  Forall (λ u, ¬ owned self todo_id u) (todos db) →
  ∃ message,
    fst (DeleteTodoTool.execute self todo_id db)
      = Returned (VDict [("success", VBool false); ("message", VStr message)]) ∧
    contains message todo_id ∧
    todos (snd (DeleteTodoTool.execute self todo_id db)) = todos db.
Proof.
  intros Hnone.
  destruct (delete_cases self todo_id db)
    as [(before & t & after & Hrows & Hown & _)|(_ & Hres & Hdb)].
  - rewrite Forall_forall in Hnone. exfalso. apply (Hnone t); [|done].
    rewrite Hrows. apply elem_of_app. right. left.
  - exists ("No todo found with ID " +:+ todo_id).
    split; [exact Hres|]. split; [apply contains_suffix | exact Hdb].
Qed.

(** X9: the dictionary a successful [update_todo] returns under [todo]
    is an entry of what [get_all_todos] lists afterwards, and the list is
    as long as before. *)
Theorem update_shows_in_listing self todo_id title description db :
  Exists (owned self todo_id) (todos db) →
  ∃ r entry before after,
    fst (UpdateTodoTool.execute self todo_id title description db)
      = Returned r ∧
    Py.get "todo" r = Some entry ∧
    entry = VDict [("id", VStr todo_id); ("title", VStr title);
                   ("description", VStr description)] ∧
    fst (GetAllTodosTool.execute self
           (snd (UpdateTodoTool.execute self todo_id title description db)))
      = Returned (VList (before ++ entry :: after)) ∧
    ∃ old,
      fst (GetAllTodosTool.execute self db)
        = Returned (VList (before ++ old :: after)) ∧
      Py.get "id" old = Some (VStr todo_id).
Proof.
  intros Hex.
  destruct (update_cases self todo_id title description db)
    as [(before & t & after & Hrows & [Hid Hown] & _ & Hres & Hdb)
       |(Hnone & _)];
    [|by apply Forall_Exists_neg in Hnone].
  set (agent := Core.get_id (parent_agent self)) in *.
  exists (VDict [("success", VBool true);
                 ("message", VStr ("Todo '" +:+ title +:+ "' updated"));
                 ("todo", todo_dict (rewritten t title description))]),
    (todo_dict (rewritten t title description)),
    (listing agent before), (listing agent after).
  split; [exact Hres|]. split; [done|].
  split; [unfold todo_dict; simpl; by rewrite Hid|].
  rewrite !get_all_listing, Hdb, Hrows. fold agent.
  rewrite !listing_app, !listing_own by done.
  split; [done|]. exists (todo_dict t). split; [done|].
  simpl. by rewrite Hid.
Qed.

(** X10: [create_todo] does not look for the identifier it draws: the
    rows of the session have unique identifiers afterwards exactly when
    they had before and the drawn identifier was not among them. *)
Theorem create_looks_for_no_collision self title description random
    (session : Session) :
  let todo_id := "todo_" +:+ slice_to 8 (Uuid.hex (Uuid.uuid4 random)) in
  unique_ids
    (rows (snd (CreateTodoTool.execute_wrapped self title description random
                  session)))
  ↔ unique_ids (rows session) ∧ todo_id ∉ id <$> rows session.
Proof.
  intros todo_id. unfold unique_ids, CreateTodoTool.execute_wrapped; simpl.
  rewrite fmap_app, NoDup_app. simpl. fold todo_id. split.
  - intros (Hpk & Hfresh & _). split; [done|].
    intros Hin. apply (Hfresh _ Hin). left.
  - intros [Hpk Hfresh]. split; [done|]. split; [|apply NoDup_singleton].
    intros x Hx Hnew. apply list_elem_of_singleton in Hnew. by subst x.
Qed.

End LeafToolEffects.

(** ** The identifier [create_todo] draws *)

Section DrawnIdentifier.
Local Open Scope N_scope.

Lemma shifted_constant_high w c s p :
  N.log2 c < w → s + w ≤ p → N.testbit (N.shiftl c s) p = false.
Proof.
  intros Hc Hp. rewrite N.shiftl_spec_high' by lia.
  apply N.bits_above_log2. lia.
Qed.

(** Setting the version and the variant touches bits 62 to 79 only. *)
Lemma uuid4_high random p :
  80 ≤ p → N.testbit (Uuid.uuid4 random) p = N.testbit (random mod 2 ^ 128) p.
Proof.
  intros Hp. unfold Uuid.uuid4.
  rewrite N.lor_spec, N.ldiff_spec, N.lor_spec, N.ldiff_spec.
  rewrite (shifted_constant_high 3 4 76) by (first [by vm_compute | lia]).
  rewrite (shifted_constant_high 16 0xf000 64) by (first [by vm_compute | lia]).
  rewrite (shifted_constant_high 16 0x8000 48) by (first [by vm_compute | lia]).
  rewrite (shifted_constant_high 16 0xc000 48) by (first [by vm_compute | lia]).
  simpl. by rewrite !orb_false_r, !andb_true_r.
Qed.

Lemma nibble_leading random (i : nat) :
  (i < 8)%nat →
  Uuid.nibble (Uuid.uuid4 random) i
    = N.land (N.shiftr (leading random) (4 * N.of_nat (7 - i))) 15.
Proof.
  intros Hi. unfold Uuid.nibble, leading. f_equal.
  rewrite <- (N.shiftr_div_pow2 _ 96), N.shiftr_shiftr.
  replace (96 + 4 * N.of_nat (7 - i)) with (4 * N.of_nat (31 - i)) by lia.
  apply N.bits_inj. intros p. rewrite !N.shiftr_spec'.
  apply uuid4_high. lia.
Qed.

Lemma drawn_identifier random :
  slice_to 8 (Uuid.hex (Uuid.uuid4 random)) = format_08x (leading random).
Proof.
  unfold slice_to, Uuid.hex, Uuid.format_032x, format_08x.
  rewrite String.list_ascii_of_string_of_list_ascii. f_equal.
  change (seq 0 32) with (seq 0 8 ++ seq 8 24).
  rewrite fmap_app, take_app_length' by (by rewrite length_fmap, length_seq).
  apply Forall_fmap_ext, Forall_forall. intros i Hi.
  apply elem_of_seq in Hi. f_equal. apply nibble_leading. lia.
Qed.

Lemma leading_lt random : leading random < 2 ^ 32.
Proof.
  unfold leading. apply N.Div0.div_lt_upper_bound.
  change (2 ^ 96 * 2 ^ 32) with (2 ^ 128). by apply N.mod_lt.
Qed.

Lemma hex_digit_inj d1 d2 :
  d1 < 16 → d2 < 16 → Uuid.hex_digit d1 = Uuid.hex_digit d2 → d1 = d2.
Proof.
  intros H1 H2. unfold Uuid.hex_digit.
  destruct (lookup_lt_is_Some_2 Uuid.hexdigits (N.to_nat d1)) as [c1 Hc1];
    [simpl; lia|].
  destruct (lookup_lt_is_Some_2 Uuid.hexdigits (N.to_nat d2)) as [c2 Hc2];
    [simpl; lia|].
  rewrite Hc1, Hc2. simpl. intros <-.
  assert (NoDup Uuid.hexdigits) as Hnd
    by (apply (bool_decide_unpack _); vm_compute; exact I).
  pose proof (NoDup_lookup _ _ _ _ Hnd Hc1 Hc2). lia.
Qed.

(** A number below [2 ^ 32] is its eight nibbles. *)
Lemma nibbles_inj a b :
  a < 2 ^ 32 → b < 2 ^ 32 →
  (∀ q, q < 8 → N.land (N.shiftr a (4 * q)) 15 = N.land (N.shiftr b (4 * q)) 15) →
  a = b.
Proof.
  intros Ha Hb Hnib. apply N.bits_inj. intros p.
  destruct (N.lt_ge_cases p 32) as [Hp|Hp].
  - assert (∀ x, N.testbit x p
                 = N.testbit (N.land (N.shiftr x (4 * (p / 4))) 15) (p mod 4))
      as Hbit.
    { intros x. rewrite N.land_spec, N.shiftr_spec'.
      change 15 with (N.ones 4).
      rewrite N.ones_spec_low by (by apply N.mod_lt).
      rewrite andb_true_r. f_equal.
      rewrite N.add_comm, N.mul_comm.
      rewrite (N.div_mod p 4) at 1 by done. by rewrite N.mul_comm. }
    rewrite (Hbit a), (Hbit b), Hnib; [done|].
    apply N.Div0.div_lt_upper_bound. by change (4 * 8) with 32.
  - assert (∀ x, x < 2 ^ 32 → N.testbit x p = false) as Hhigh.
    { intros x Hx. destruct (decide (x = 0)) as [->|Hne]; [apply N.bits_0|].
      apply N.bits_above_log2.
      apply N.log2_lt_pow2 in Hx; lia. }
    by rewrite !Hhigh.
Qed.

Lemma format_08x_inj a b :
  a < 2 ^ 32 → b < 2 ^ 32 → format_08x a = format_08x b → a = b.
Proof.
  intros Ha Hb Heq. unfold format_08x in Heq.
  apply (f_equal String.list_ascii_of_string) in Heq.
  rewrite !String.list_ascii_of_string_of_list_ascii in Heq.
  apply Forall_fmap_ext in Heq. rewrite Forall_forall in Heq.
  apply nibbles_inj; [done..|]. intros q Hq.
  specialize (Heq (7 - N.to_nat q)%nat).
  replace (N.of_nat (7 - (7 - N.to_nat q))) with q in Heq by lia.
  apply hex_digit_inj.
  - change 15 with (N.ones 4). rewrite N.land_ones. by apply N.mod_lt.
  - change 15 with (N.ones 4). rewrite N.land_ones. by apply N.mod_lt.
  - apply Heq, elem_of_seq. lia.
Qed.

(** X11: the identifier [create_todo] returns is "todo_" followed by the
    eight hexadecimal digits of the first four of the sixteen bytes
    [uuid4] draws, whatever the other twelve are: two calls return the
    same identifier exactly when their draws start with the same four
    bytes. *)
Theorem same_identifier_iff {Client Tool} (self : BaseTool Client Tool)
    title1 description1 title2 description2 (random1 random2 : N)
    (session1 session2 : Session) :
  ∃ id1 id2,
    fst (CreateTodoTool.execute_wrapped self title1 description1 random1 session1)
      = Returned (VDict [("id", VStr id1); ("title", VStr title1);
                         ("description", VStr description1)]) ∧
    fst (CreateTodoTool.execute_wrapped self title2 description2 random2 session2)
      = Returned (VDict [("id", VStr id2); ("title", VStr title2);
                         ("description", VStr description2)]) ∧
    id1 = "todo_" +:+ format_08x (leading random1) ∧
    (id1 = id2 ↔ leading random1 = leading random2).
Proof.
  exists ("todo_" +:+ slice_to 8 (Uuid.hex (Uuid.uuid4 random1))),
    ("todo_" +:+ slice_to 8 (Uuid.hex (Uuid.uuid4 random2))).
  split; [done|]. split; [done|]. rewrite !drawn_identifier.
  split; [done|]. split.
  - intros Heq. apply (inj (String.app "todo_")) in Heq.
    apply format_08x_inj; [apply leading_lt..|done].
  - by intros ->.
Qed.

End DrawnIdentifier.

(** ** Sequences of calls *)

Section LeafToolSequences.
Context {Client Tool : Type}.
Implicit Types (self : BaseTool Client Tool) (db : database) (t : TodoItem).

(** X12: [delete_todo] removes at most one entity: the entity set
    afterwards is the one before with one entity left out when the
    executing agent owns an entity under the identifier, also when it owns
    several, and the same set otherwise. *)
Theorem delete_removes_one self todo_id db :
  let db' := snd (DeleteTodoTool.execute self todo_id db) in
  todos db' `sublist_of` todos db ∧
  length (todos db')
    = length (todos db)
      - (if bool_decide (Exists (owned self todo_id) (todos db)) then 1 else 0) ∧
  (∀ u, u ∈ todos db → u ∉ todos db' → owned self todo_id u).
Proof.
  intros db'. subst db'.
  destruct (delete_cases self todo_id db)
    as [(before & t & after & Hrows & Hown & _ & _ & ->)|(Hnone & _ & ->)].
  - rewrite bool_decide_eq_true_2
      by (apply Exists_exists; exists t; split; [|done];
          rewrite Hrows; apply elem_of_app; right; left).
    rewrite Hrows. split; [|split].
    + apply sublist_app; [done|]. by apply sublist_cons.
    + rewrite !length_app. simpl. lia.
    + intros u Hu Hgone.
      apply elem_of_app in Hu as [Hu|Hu].
      * exfalso. apply Hgone, elem_of_app. by left.
      * apply elem_of_cons in Hu as [->|Hu]; [done|].
        exfalso. apply Hgone, elem_of_app. by right.
  - rewrite bool_decide_eq_false_2 by (by apply Forall_Exists_neg).
    split; [done|]. split; [lia|]. intros u Hu Hgone. by exfalso.
Qed.

(** X13: an entity that was deleted cannot be updated: when the primary
    key holds and the executing agent owns an entity under the identifier,
    [update_todo] after [delete_todo] on that identifier answers
    [{success: False}] and changes nothing. *)
Theorem delete_then_update self todo_id title description db :
  unique_ids (todos db) →
  Exists (owned self todo_id) (todos db) →
  let db1 := snd (DeleteTodoTool.execute self todo_id db) in
  fst (UpdateTodoTool.execute self todo_id title description db1)
    = Returned (not_found todo_id) ∧
  todos (snd (UpdateTodoTool.execute self todo_id title description db1))
    = todos db1.
Proof.
  intros Hpk Hex db1.
  destruct (delete_cases self todo_id db)
    as [(before & t & after & Hrows & [Hid _] & _ & _ & Hdb)|(Hnone & _)];
    [|by apply Forall_Exists_neg in Hnone].
  fold db1 in Hdb.
  assert (Forall (λ u, ¬ owned self todo_id u) (todos db1)) as Hgone.
  { rewrite Hdb. apply Forall_forall. intros u Hu [Hsame _].
    unfold unique_ids in Hpk. rewrite Hrows, fmap_app, fmap_cons in Hpk.
    apply NoDup_app in Hpk as (_ & Hleft & Hright).
    apply NoDup_cons in Hright as [Hright _].
    apply elem_of_app in Hu as [Hu|Hu].
    - apply (Hleft (id u)); [by apply list_elem_of_fmap_2|].
      rewrite Hsame, <- Hid. left.
    - apply Hright. rewrite Hid, <- Hsame. by apply list_elem_of_fmap_2. }
  destruct (update_cases self todo_id title description db1)
    as [(before' & t' & after' & Hrows' & Hown' & _)|(_ & Hres & Hsame)];
    [|done].
  rewrite Forall_forall in Hgone. exfalso. apply (Hgone t'); [|done].
  rewrite Hrows'. apply elem_of_app. right. left.
Qed.

(** X14: an entity can be updated under the identifier [create_todo]
    returned: when that identifier is new to the store, [update_todo]
    rewrites the created entity, the last of the set, and leaves the
    entities that were there as they were. *)
Theorem create_then_update self title description random title' description'
    db :
  let todo_id := "todo_" +:+ slice_to 8 (Uuid.hex (Uuid.uuid4 random)) in
  todo_id ∉ id <$> todos db →
  let db1 := snd (CreateTodoTool.execute self title description random db) in
  fst (UpdateTodoTool.execute self todo_id title' description' db1)
    = Returned
        (VDict [("success", VBool true);
                ("message", VStr ("Todo '" +:+ title' +:+ "' updated"));
                ("todo", VDict [("id", VStr todo_id); ("title", VStr title');
                                ("description", VStr description')])]) ∧
  todos (snd (UpdateTodoTool.execute self todo_id title' description' db1))
    = todos db ++
      [{| id := todo_id; Models.agent_id := Core.get_id (parent_agent self);
          Models.title := title'; Models.description := description' |}].
Proof.
  intros todo_id Hnew db1.
  pose proof (new_id_not_owned self todo_id (todos db) Hnew) as Hfresh.
  pose proof (create_persists self title description random db) as Hdb1.
  fold db1 todo_id in Hdb1.
  pose proof (first_of_split (owned self todo_id) (injected db1) (todos db)
                _ [] Hdb1 (conj eq_refl eq_refl) Hfresh) as Hfirst.
  rewrite with_session_result_update, update_persists.
  rewrite (update_wrapped_found _ _ _ _ _ _ _ Hfirst). cbn [fst snd].
  split; [done|].
  by rewrite (write_middle (injected db1) (todos db) _ [] _ Hdb1).
Qed.

End LeafToolSequences.

(** ** The further properties on the sample data *)

Lemma update_existing_witness :
  Exists (owned Sample.tool_123 "todo_0000000a") (todos Sample.db) ∧
  ∃ before t after,
    todos Sample.db = before ++ t :: after ∧
    owned Sample.tool_123 "todo_0000000a" t ∧
    Forall (λ u, ¬ owned Sample.tool_123 "todo_0000000a" u) before ∧
    fst (UpdateTodoTool.execute Sample.tool_123 "todo_0000000a" "Buy oat milk"
           "one litre" Sample.db)
      = Returned
          (VDict [("success", VBool true);
                  ("message", VStr ("Todo '" +:+ "Buy oat milk" +:+ "' updated"));
                  ("todo", VDict [("id", VStr "todo_0000000a");
                                  ("title", VStr "Buy oat milk");
                                  ("description", VStr "one litre")])]) ∧
    todos (snd (UpdateTodoTool.execute Sample.tool_123 "todo_0000000a"
                  "Buy oat milk" "one litre" Sample.db))
      = before ++ rewritten t "Buy oat milk" "one litre" :: after.
Proof.
  assert (Exists (owned Sample.tool_123 "todo_0000000a") (todos Sample.db))
    as Hex by (apply (bool_decide_unpack _); vm_compute; exact I).
  split; [exact Hex|].
  exact (update_existing Sample.tool_123 "todo_0000000a" "Buy oat milk"
           "one litre" Sample.db Hex).
Defined.

Lemma other_agents_untouched_witness :
  Core.get_id (parent_agent Sample.tool_456)
    ≠ Core.get_id (parent_agent Sample.tool_123) ∧
  fst (GetAllTodosTool.execute Sample.tool_456
         (snd (DeleteTodoTool.execute Sample.tool_123 "todo_0000000a" Sample.db)))
    = fst (GetAllTodosTool.execute Sample.tool_456 Sample.db).
Proof.
  assert (Core.get_id (parent_agent Sample.tool_456)
            ≠ Core.get_id (parent_agent Sample.tool_123)) as Hne by done.
  split; [exact Hne|].
  exact (proj2 (proj2 (other_agents_untouched Sample.tool_123 Sample.tool_456
                         Sample.db Hne)) "todo_0000000a").
Defined.

Lemma create_then_delete_witness :
  ("todo_" +:+ slice_to 8 (Uuid.hex (Uuid.uuid4 0xdeadbeef))
     ∉ id <$> todos Sample.db) ∧
  todos (snd (DeleteTodoTool.execute Sample.tool_123
                ("todo_" +:+ slice_to 8 (Uuid.hex (Uuid.uuid4 0xdeadbeef)))
                (snd (CreateTodoTool.execute Sample.tool_123 "Call home" ""
                        0xdeadbeef Sample.db))))
    = todos Sample.db.
Proof.
  assert ("todo_" +:+ slice_to 8 (Uuid.hex (Uuid.uuid4 0xdeadbeef))
            ∉ id <$> todos Sample.db) as Hfresh
    by (apply (bool_decide_unpack _); vm_compute; exact I).
  split; [exact Hfresh|].
  exact (proj2 (proj2 (create_then_delete Sample.tool_123 "Call home" ""
                         0xdeadbeef Sample.db Hfresh))).
Defined.

Lemma delete_shrinks_listing_witness :
  Exists (owned Sample.tool_123 "todo_0000000a") (todos Sample.db) ∧
  ∃ earlier t later,
    fst (GetAllTodosTool.execute Sample.tool_123 Sample.db)
      = Returned (VList (todo_dict <$> (earlier ++ t :: later))) ∧
    id t = "todo_0000000a" ∧
    Forall (λ u, id u ≠ "todo_0000000a") earlier ∧
    fst (DeleteTodoTool.execute Sample.tool_123 "todo_0000000a" Sample.db)
      = Returned (VDict [("success", VBool true);
                         ("message",
                          VStr ("Todo '" +:+ Models.title t +:+ "' deleted"))]) ∧
    fst (GetAllTodosTool.execute Sample.tool_123
           (snd (DeleteTodoTool.execute Sample.tool_123 "todo_0000000a"
                   Sample.db)))
      = Returned (VList (todo_dict <$> (earlier ++ later))).
Proof.
  assert (Exists (owned Sample.tool_123 "todo_0000000a") (todos Sample.db))
    as Hex by (apply (bool_decide_unpack _); vm_compute; exact I).
  split; [exact Hex|].
  exact (delete_shrinks_listing Sample.tool_123 "todo_0000000a" Sample.db Hex).
Defined.

Lemma delete_nonexistent_witness :
  Forall (λ u, ¬ owned Sample.tool_123 "todo_0000000b" u) (todos Sample.db) ∧
  ∃ message,
    fst (DeleteTodoTool.execute Sample.tool_123 "todo_0000000b" Sample.db)
      = Returned (VDict [("success", VBool false); ("message", VStr message)]) ∧
    contains message "todo_0000000b" ∧
    todos (snd (DeleteTodoTool.execute Sample.tool_123 "todo_0000000b" Sample.db))
      = todos Sample.db.
Proof.
  assert (Forall (λ u, ¬ owned Sample.tool_123 "todo_0000000b" u)
            (todos Sample.db)) as Hnone
    by (apply (bool_decide_unpack _); vm_compute; exact I).
  split; [exact Hnone|].
  exact (delete_nonexistent Sample.tool_123 "todo_0000000b" Sample.db Hnone).
Defined.

Lemma update_shows_in_listing_witness :
  Exists (owned Sample.tool_456 "todo_0000000b") (todos Sample.db) ∧
  ∃ r entry before after,
    fst (UpdateTodoTool.execute Sample.tool_456 "todo_0000000b" "Pay less" ""
           Sample.db) = Returned r ∧
    Py.get "todo" r = Some entry ∧
    entry = VDict [("id", VStr "todo_0000000b"); ("title", VStr "Pay less");
                   ("description", VStr "")] ∧
    fst (GetAllTodosTool.execute Sample.tool_456
           (snd (UpdateTodoTool.execute Sample.tool_456 "todo_0000000b"
                   "Pay less" "" Sample.db)))
      = Returned (VList (before ++ entry :: after)) ∧
    ∃ old,
      fst (GetAllTodosTool.execute Sample.tool_456 Sample.db)
        = Returned (VList (before ++ old :: after)) ∧
      Py.get "id" old = Some (VStr "todo_0000000b").
Proof.
  assert (Exists (owned Sample.tool_456 "todo_0000000b") (todos Sample.db))
    as Hex by (apply (bool_decide_unpack _); vm_compute; exact I).
  split; [exact Hex|].
  exact (update_shows_in_listing Sample.tool_456 "todo_0000000b" "Pay less" ""
           Sample.db Hex).
Defined.

Lemma delete_then_update_witness :
  unique_ids (todos Sample.db) ∧
  Exists (owned Sample.tool_123 "todo_0000000a") (todos Sample.db) ∧
  fst (UpdateTodoTool.execute Sample.tool_123 "todo_0000000a" "Buy oat milk" ""
         (snd (DeleteTodoTool.execute Sample.tool_123 "todo_0000000a" Sample.db)))
    = Returned (not_found "todo_0000000a").
Proof.
  assert (unique_ids (todos Sample.db)) as Hpk
    by (apply (bool_decide_unpack _); vm_compute; exact I).
  assert (Exists (owned Sample.tool_123 "todo_0000000a") (todos Sample.db))
    as Hex by (apply (bool_decide_unpack _); vm_compute; exact I).
  split; [exact Hpk|]. split; [exact Hex|].
  exact (proj1 (delete_then_update Sample.tool_123 "todo_0000000a"
                  "Buy oat milk" "" Sample.db Hpk Hex)).
Defined.

Lemma create_then_update_witness :
  ("todo_" +:+ slice_to 8 (Uuid.hex (Uuid.uuid4 0xdeadbeef))
     ∉ id <$> todos Sample.db) ∧
  todos (snd (UpdateTodoTool.execute Sample.tool_123
                ("todo_" +:+ slice_to 8 (Uuid.hex (Uuid.uuid4 0xdeadbeef)))
                "Call home" "after six"
                (snd (CreateTodoTool.execute Sample.tool_123 "Call home" ""
                        0xdeadbeef Sample.db))))
    = todos Sample.db ++
      [{| id := "todo_" +:+ slice_to 8 (Uuid.hex (Uuid.uuid4 0xdeadbeef));
          Models.agent_id := Core.get_id (parent_agent Sample.tool_123);
          Models.title := "Call home"; Models.description := "after six" |}].
Proof.
  assert ("todo_" +:+ slice_to 8 (Uuid.hex (Uuid.uuid4 0xdeadbeef))
            ∉ id <$> todos Sample.db) as Hfresh
    by (apply (bool_decide_unpack _); vm_compute; exact I).
  split; [exact Hfresh|].
  exact (proj2 (create_then_update Sample.tool_123 "Call home" "" 0xdeadbeef
                  "Call home" "after six" Sample.db Hfresh)).
Defined.

Example identifier_sample :
  format_08x (leading (0xdeadbeef * 2 ^ 96 + 12345)) = "deadbeef".
Proof. vm_compute. reflexivity. Qed.

Example history_room_sample :
  Core.snapshot (Core.appends [Sample.tells "c9"] (Core.new_storage 5))
  = [Sample.tells "c9"].
Proof. vm_compute. reflexivity. Qed.

Example history_late_result_sample :
  Core.snapshot
    (Core.appends [Sample.asks "c1"; Sample.says "one"; Sample.says "two";
                   Sample.tells "c1"] (Core.new_storage 2))
  = [Sample.says "two"; Sample.tells "c1"].
Proof. vm_compute. reflexivity. Qed.

Lemma create_extends_listing_witness :
  ("todo_" +:+ slice_to 8 (Uuid.hex (Uuid.uuid4 0xdeadbeef))
     ∉ id <$> todos Sample.db) ∧
  ∃ entries entry,
    fst (GetAllTodosTool.execute Sample.tool_123 Sample.db)
      = Returned (VList entries) ∧
    fst (CreateTodoTool.execute Sample.tool_123 "Call home" "" 0xdeadbeef
           Sample.db) = Returned entry ∧
    fst (GetAllTodosTool.execute Sample.tool_123
           (snd (CreateTodoTool.execute Sample.tool_123 "Call home" ""
                   0xdeadbeef Sample.db)))
      = Returned (VList (entries ++ [entry])).
Proof.
  assert ("todo_" +:+ slice_to 8 (Uuid.hex (Uuid.uuid4 0xdeadbeef))
            ∉ id <$> todos Sample.db) as Hfresh
    by (apply (bool_decide_unpack _); vm_compute; exact I).
  split; [exact Hfresh|].
  exact (create_extends_listing Sample.tool_123 "Call home" "" 0xdeadbeef
           Sample.db Hfresh).
Defined.

Lemma leaf_tools_return_witness :
  ("todo_" +:+ slice_to 8 (Uuid.hex (Uuid.uuid4 0xdeadbeef))
     ∉ id <$> todos Sample.db) ∧
  fst (CreateTodoTool.execute Sample.tool_123 "Call home" "" 0xdeadbeef
         Sample.db)
    = fst (CreateTodoTool.execute_wrapped Sample.tool_123 "Call home" ""
             0xdeadbeef (injected Sample.db)).
Proof.
  assert ("todo_" +:+ slice_to 8 (Uuid.hex (Uuid.uuid4 0xdeadbeef))
            ∉ id <$> todos Sample.db) as Hfresh
    by (apply (bool_decide_unpack _); vm_compute; exact I).
  split; [exact Hfresh|].
  exact (proj1 (proj2 (proj2 (proj2 (proj2
           (leaf_tools_return Sample.tool_123 (injected Sample.db))))))
           Sample.db "Call home" "" 0xdeadbeef%N Hfresh).
Defined.

Lemma create_returns_witness :
  ("todo_" +:+ slice_to 8 (Uuid.hex (Uuid.uuid4 0xdeadbeef))
     ∉ id <$> todos Sample.db) ∧
  ∃ todo,
    todos (snd (CreateTodoTool.execute Sample.tool_123 "Call home" ""
                  0xdeadbeef Sample.db))
      = todos Sample.db ++ [todo] ∧
    Models.agent_id todo = "123" ∧
    Models.title todo = "Call home".
Proof.
  assert ("todo_" +:+ slice_to 8 (Uuid.hex (Uuid.uuid4 0xdeadbeef))
            ∉ id <$> todos Sample.db) as Hfresh
    by (apply (bool_decide_unpack _); vm_compute; exact I).
  split; [exact Hfresh|].
  destruct (create_returns Sample.tool_123 "Call home" "" 0xdeadbeef Sample.db)
    as (suffix & todo & _ & _ & _ & Hagent & Htitle & _ & Hbody & Hscope).
  pose proof (f_equal fst (Hbody (injected Sample.db))) as Hsame.
  unfold CreateTodoTool.execute_wrapped in Hsame. simpl in Hsame.
  assert ("todo_" +:+ slice_to 8 (Uuid.hex (Uuid.uuid4 0xdeadbeef))
            = "todo_" +:+ suffix) as Hsuffix by congruence.
  exists todo. split; [|done].
  apply Hscope. rewrite <- Hsuffix. exact Hfresh.
Defined.
